(** * The chat relay of backend/main.go

    A shallow embedding of [chatHandler], the single HTTP handler of the
    program, together with the parts of the Go libraries it calls that decide
    its behaviour: [encoding/json] decoding into [map[string]interface{}],
    [net/http]'s client with the redirects it follows, fiber's request
    context and what the server makes of the response it is left with. The
    page that talks to the handler, [handleSubmit] of src/App.jsx, follows
    in a part of its own.

    Go strings and byte slices are sequences of bytes: both are [string] here.
    Go's [interface{}] values are the inductive type [any]; a Go map with
    string keys is a [gmap string _]; Go's [int] is [Z]. *)

From Stdlib Require Import ZArith NArith Ascii String List Bool Lia SpecFloat.
From stdpp Require Import gmap strings.

Local Open Scope string_scope.
Local Open Scope Z_scope.

(** ** Bytes *)

Definition ord (c : ascii) : Z := Z.of_N (N_of_ascii c).
Definition chr (z : Z) : ascii := ascii_of_N (Z.to_N z).

Definition dquote : ascii := "034"%char.
Definition newline : ascii := "010"%char.

Definition str1 (c : ascii) : string := String c EmptyString.

(** [s] between double quotes. *)
Definition quoted (s : string) : string := String dquote (s ++ str1 dquote).

Definition between (lo hi : Z) (c : ascii) : bool :=
  (lo <=? ord c) && (ord c <=? hi).

Definition isDigit (c : ascii) : bool := between 48 57 c.

Definition hexdigit (n : Z) : ascii :=
  if n <? 10 then chr (48 + n) else chr (87 + n).

(** ** Dynamic values

    The dynamic types that values of type [interface{}] have in this program:
    what [json.Unmarshal] stores ([nil], [bool], [float64], [string],
    [[]interface{}], [map[string]interface{}]) and what the request payload
    literal holds besides ([int], [[]map[string]string]).

    A [float64] is kept as the decimal literal that denotes it (the handler
    never computes with numbers). A nil map reads like the empty map, and the
    handler only reads its maps, so both are [∅]. *)

#[warnings="-register-all"]
Inductive any : Type :=
| VNil
| VBool (b : bool)
| VFloat64 (lit : string)
| VInt (n : Z)
| VString (s : string)
| VSlice (l : list any)
| VMap (m : gmap string any)
| VMapSlice (l : list (gmap string string)).

(** Type assertions [v.(T)] with the comma-ok form; [v] is the result of a
    map index, [None] when the key is missing (Go yields the nil interface,
    on which every assertion fails). *)

Definition assert_string (v : option any) : string * bool :=
  match v with Some (VString s) => (s, true) | _ => (EmptyString, false) end.

Definition assert_slice (v : option any) : list any * bool :=
  match v with Some (VSlice l) => (l, true) | _ => ([], false) end.

Definition assert_map (v : option any) : gmap string any * bool :=
  match v with Some (VMap m) => (m, true) | _ => (∅, false) end.

(** ** Errors

    A Go [error] is observed by this program only through [%v], that is
    through its [Error()] text. *)

Inductive error : Type :=
| SyntaxError (msg : string)
| UnmarshalTypeError (Value : string) (Type_ : string)
| errorString (s : string).

Definition Error (e : error) : string :=
  match e with
  | SyntaxError msg => msg
  | UnmarshalTypeError v t =>
      "json: cannot unmarshal " ++ v ++ " into Go value of type " ++ t
  | errorString s => s
  end.

(** ** Package fmt: the two verbs the handler uses *)

Inductive operand : Type :=
| OString (s : string)
| OError (e : error).

Definition format_operand (o : operand) : string :=
  match o with OString s => s | OError e => Error e end.

(** [Sprintf] for formats whose verbs are [%s] and [%v], applied to strings
    and errors; a verb without operand prints Go's [%!v(MISSING)]. *)
Fixpoint Sprintf (format : string) (a : list operand) : string :=
  match format with
  | String "%" (String verb rest) =>
      if (Ascii.eqb verb "s" || Ascii.eqb verb "v")%bool then
        match a with
        | o :: a' => format_operand o ++ Sprintf rest a'
        | [] => "%!" ++ str1 verb ++ "(MISSING)" ++ Sprintf rest []
        end
      else String "%" (String verb (Sprintf rest a))
  | String c rest => String c (Sprintf rest a)
  | EmptyString => EmptyString
  end.

(** ** Package unicode/utf8 and utf16 *)

Module utf8.

Definition RuneError : Z := 65533.

Definition cont (c : ascii) : bool := between 128 191 c.

(** [DecodeRune s]: the first rune of [s] and its width; an invalid or
    truncated encoding gives [(RuneError, 1)]. *)
Definition DecodeRune (s : string) : Z * nat :=
  match s with
  | EmptyString => (RuneError, 0%nat)
  | String b0 t =>
      let x := ord b0 in
      if x <? 128 then (x, 1%nat)
      else if between 194 223 b0 then
        match t with
        | String b1 _ =>
            if cont b1 then ((x - 192) * 64 + (ord b1 - 128), 2%nat)
            else (RuneError, 1%nat)
        | _ => (RuneError, 1%nat)
        end
      else if between 224 239 b0 then
        match t with
        | String b1 (String b2 _) =>
            let lo := if x =? 224 then 160 else 128 in
            let hi := if x =? 237 then 159 else 191 in
            if (between lo hi b1 && cont b2)%bool
            then ((x - 224) * 4096 + (ord b1 - 128) * 64 + (ord b2 - 128), 3%nat)
            else (RuneError, 1%nat)
        | _ => (RuneError, 1%nat)
        end
      else if between 240 244 b0 then
        match t with
        | String b1 (String b2 (String b3 _)) =>
            let lo := if x =? 240 then 144 else 128 in
            let hi := if x =? 244 then 143 else 191 in
            if (between lo hi b1 && cont b2 && cont b3)%bool
            then ((x - 240) * 262144 + (ord b1 - 128) * 4096
                  + (ord b2 - 128) * 64 + (ord b3 - 128), 4%nat)
            else (RuneError, 1%nat)
        | _ => (RuneError, 1%nat)
        end
      else (RuneError, 1%nat)
  end.

(** [EncodeRune r], with surrogates and out-of-range runes replaced by
    [RuneError]. *)
Definition EncodeRune (r : Z) : string :=
  let r := if (r <? 0) || (1114111 <? r) || ((55296 <=? r) && (r <=? 57343))
           then RuneError else r in
  if r <? 128 then str1 (chr r)
  else if r <? 2048 then
    String (chr (192 + r / 64)) (str1 (chr (128 + r mod 64)))
  else if r <? 65536 then
    String (chr (224 + r / 4096))
      (String (chr (128 + (r / 64) mod 64)) (str1 (chr (128 + r mod 64))))
  else
    String (chr (240 + r / 262144))
      (String (chr (128 + (r / 4096) mod 64))
         (String (chr (128 + (r / 64) mod 64)) (str1 (chr (128 + r mod 64))))).

End utf8.

Module utf16.

Definition IsSurrogate (r : Z) : bool := (55296 <=? r) && (r <? 57344).

Definition DecodeRune (r1 r2 : Z) : Z :=
  if (55296 <=? r1) && (r1 <? 56320) && (56320 <=? r2) && (r2 <? 57344)
  then (r1 - 55296) * 1024 + (r2 - 56320) + 65536
  else utf8.RuneError.

End utf16.

(** ** Package encoding/json

    [Unmarshal] into a [map[string]interface{}], as both calls of the program
    use it. The byte-level state machine is the one of scanner.go (one step
    function per scanner state, a stack of parse states, Go's error texts);
    the stack frames carry the containers being built, so that one pass over
    the bytes both validates and decodes. *)

Module json.

Definition isSpace (c : ascii) : bool :=
  (ord c =? 32) || (ord c =? 9) || (ord c =? 13) || (ord c =? 10).

(** *** Error texts of the scanner *)

(** [quoteChar c]: the byte as the rune of the same number, quoted the way
    [strconv.Quote] does, between single quotes. *)
Definition quoteChar (c : ascii) : string :=
  let x := ord c in
  let body :=
    if x =? 39 then "\'"
    else if x =? 34 then str1 dquote
    else if x =? 92 then "\\"
    else if between 32 126 c then str1 c
    else if x =? 7 then "\a"
    else if x =? 8 then "\b"
    else if x =? 12 then "\f"
    else if x =? 10 then "\n"
    else if x =? 13 then "\r"
    else if x =? 9 then "\t"
    else if x =? 11 then "\v"
    else if (x <? 32) || (x =? 127) then
      "\x" ++ str1 (hexdigit (x / 16)) ++ str1 (hexdigit (x mod 16))
    else if (x <=? 160) || (x =? 173) then
      "\u00" ++ str1 (hexdigit (x / 16)) ++ str1 (hexdigit (x mod 16))
    else utf8.EncodeRune x in
  "'" ++ body ++ "'".

(** *** String literals: decode.go, unquoteBytes *)

Definition hexval (c : ascii) : option Z :=
  if isDigit c then Some (ord c - 48)
  else if between 97 102 c then Some (ord c - 87)
  else if between 65 70 c then Some (ord c - 55)
  else None.

(** [getu4 s]: the code unit of a [\uXXXX] escape at the start of [s],
    or [-1]. *)
Definition getu4 (s : string) : Z :=
  match s with
  | String "\" (String "u" (String a (String b (String c (String d _))))) =>
      match hexval a, hexval b, hexval c, hexval d with
      | Some a, Some b, Some c, Some d => a * 4096 + b * 256 + c * 16 + d
      | _, _, _, _ => -1
      end
  | _ => -1
  end.

Definition drop6 (s : string) : string :=
  match s with
  | String _ (String _ (String _ (String _ (String _ (String _ t))))) => t
  | _ => EmptyString
  end.

(** [unquote_from skip s] decodes the inside of a string literal (the text
    between the quotes). Go advances its read index by the width of what it
    just decoded; here the bytes already accounted for are passed over by
    [skip]. Escapes are resolved, surrogate pairs joined, and invalid UTF-8
    is replaced by U+FFFD. [None] is Go's [ok = false]. *)
Fixpoint unquote_from (skip : nat) (s : string) : option string :=
  match s with
  | EmptyString => Some EmptyString
  | String c rest =>
      match skip with
      | S k => unquote_from k rest
      | O =>
          let emit (t : string) (k : nat) :=
            match unquote_from k rest with
            | Some u => Some (t ++ u)
            | None => None
            end in
          if ord c =? 92 then
            match rest with
            | EmptyString => None
            | String e _ =>
                let y := ord e in
                if (y =? 34) || (y =? 92) || (y =? 47) || (y =? 39)
                then emit (str1 e) 1%nat
                else if y =? 98 then emit (str1 (chr 8)) 1%nat
                else if y =? 102 then emit (str1 (chr 12)) 1%nat
                else if y =? 110 then emit (str1 (chr 10)) 1%nat
                else if y =? 114 then emit (str1 (chr 13)) 1%nat
                else if y =? 116 then emit (str1 (chr 9)) 1%nat
                else if y =? 117 then
                  let rr := getu4 s in
                  if rr <? 0 then None
                  else if utf16.IsSurrogate rr then
                    let dec := utf16.DecodeRune rr (getu4 (drop6 s)) in
                    if dec =? utf8.RuneError
                    then emit (utf8.EncodeRune utf8.RuneError) 5%nat
                    else emit (utf8.EncodeRune dec) 11%nat
                  else emit (utf8.EncodeRune rr) 5%nat
                else None
            end
          else if (ord c =? 34) || (ord c <? 32) then None
          else if ord c <? 128 then emit (str1 c) 0%nat
          else
            let '(rr, size) := utf8.DecodeRune s in
            emit (utf8.EncodeRune rr) (Nat.pred size)
      end
  end.

Definition unquote (s : string) : option string := unquote_from 0 s.

(** *** Numbers: convertNumber

    [strconv.ParseFloat] fails on a valid literal only when it is out of
    range, i.e. when its magnitude rounds to infinity: at or above
    [2^1024 - 2^970], half way between the largest [float64] and [2^1024]. *)

Fixpoint take_digits (s : string) (acc n : Z) : Z * Z * string :=
  match s with
  | String c rest =>
      if isDigit c then take_digits rest (acc * 10 + (ord c - 48)) (n + 1)
      else (acc, n, s)
  | EmptyString => (acc, n, s)
  end.

(** [decimal lit = (d, x)]: the magnitude of [lit] is [d * 10^x]. *)
Definition decimal (lit : string) : Z * Z :=
  let s := match lit with String "-" t => t | _ => lit end in
  let '(d, _, s) := take_digits s 0 0 in
  let '(d, k, s) :=
    match s with
    | String "." t => take_digits t d 0
    | _ => (d, 0, s)
    end in
  let e :=
    match s with
    | String _ (String "-" t) => - fst (fst (take_digits t 0 0))
    | String _ (String "+" t) => fst (fst (take_digits t 0 0))
    | String _ t => fst (fst (take_digits t 0 0))
    | EmptyString => 0
    end in
  (d, e - k).

Definition out_of_range (lit : string) : bool :=
  let '(d, x) := decimal lit in
  let limit := 2 ^ 1024 - 2 ^ 970 in
  if 0 <=? x then limit <=? d * 10 ^ x else limit * 10 ^ (- x) <=? d.

(** *** The scanner *)

Inductive parsePhase : Type :=
| parseObjectKey | parseObjectValue | parseArrayValue.

(** An entry of the parse stack: Go's parse state, with the object or array
    under construction and the key read last. *)
Record frame : Type := Frame {
  phase : parsePhase;
  obj : gmap string any;
  key : string;
  arr : list any
}.

Inductive stepfn : Type :=
| stateBeginValueOrEmpty | stateBeginValue | stateBeginStringOrEmpty
| stateBeginString | stateEndValue | stateEndTop
| stateInString | stateInStringEsc | stateInStringEscU
| stateInStringEscU1 | stateInStringEscU12 | stateInStringEscU123
| stateNeg | state1 | state0 | stateDot | stateDot0
| stateE | stateESign | stateE0
| stateT | stateTr | stateTru
| stateF | stateFa | stateFal | stateFals
| stateN | stateNu | stateNul
| stateError.

Record scanner : Type := Scanner {
  step : stepfn;
  parseState : list frame;
  endTop : bool;
  err : option error;
  (* the decoder's part *)
  lit : string;               (* bytes of the literal being read *)
  top : option any;           (* the top-level value, once complete *)
  savedError : option error   (* the first error of the decoder *)
}.

Definition reset : scanner :=
  Scanner stateBeginValue [] false None EmptyString None None.

Definition set_step (st : stepfn) (s : scanner) : scanner :=
  Scanner st (parseState s) (endTop s) (err s) (lit s) (top s) (savedError s).

Definition set_lit (l : string) (s : scanner) : scanner :=
  Scanner (step s) (parseState s) (endTop s) (err s) l (top s) (savedError s).

Definition set_parseState (ps : list frame) (s : scanner) : scanner :=
  Scanner (step s) ps (endTop s) (err s) (lit s) (top s) (savedError s).

Definition push_lit (c : ascii) (s : scanner) : scanner :=
  set_lit (lit s ++ str1 c) s.

Definition maxNestingDepth : Z := 10000.

(** [s.error(c, context)] *)
Definition scan_error (s : scanner) (c : ascii) (context : string) : scanner :=
  Scanner stateError (parseState s) (endTop s)
    (Some (SyntaxError ("invalid character " ++ quoteChar c ++ " " ++ context)))
    (lit s) (top s) (savedError s).

Definition phasePanicMsg : string :=
  "JSON decoder out of sync - data changing underfoot?".

Definition phasePanic (s : scanner) : scanner :=
  Scanner stateError (parseState s) (endTop s)
    (Some (errorString phasePanicMsg)) (lit s) (top s) (savedError s).

Definition saveError (e : error) (s : scanner) : scanner :=
  Scanner (step s) (parseState s) (endTop s) (err s) (lit s) (top s)
    (match savedError s with Some e0 => Some e0 | None => Some e end).

(** A completed value goes where the enclosing container expects it: as
    the key just read, as the value of that key, or as the next element. *)
Definition store (v : any) (s : scanner) : scanner :=
  match parseState s with
  | [] => Scanner (step s) [] (endTop s) (err s) (lit s) (Some v) (savedError s)
  | f :: fs =>
      let f' :=
        match phase f with
        | parseObjectKey =>
            Frame parseObjectKey (obj f)
              (match v with VString k => k | _ => EmptyString end) (arr f)
        | parseObjectValue =>
            Frame parseObjectValue (<[key f := v]> (obj f)) (key f) (arr f)
        | parseArrayValue =>
            Frame parseArrayValue (obj f) (key f) (arr f ++ [v])
        end in
      set_parseState (f' :: fs) s
  end.

Definition set_phase (p : parsePhase) (s : scanner) : scanner :=
  match parseState s with
  | f :: fs => set_parseState (Frame p (obj f) (key f) (arr f) :: fs) s
  | [] => s
  end.

Definition pushParseState (s : scanner) (c : ascii) (newPhase : parsePhase)
  : scanner :=
  let s := set_parseState (Frame newPhase ∅ EmptyString [] :: parseState s) s in
  if Z.of_nat (length (parseState s)) <=? maxNestingDepth then s
  else scan_error s c "exceeded max depth".

Definition popParseState (s : scanner) : scanner :=
  match parseState s with
  | [] => s
  | f :: fs =>
      let v := match phase f with
               | parseArrayValue => VSlice (arr f)
               | _ => VMap (obj f)
               end in
      let s := Scanner (match fs with [] => stateEndTop | _ => stateEndValue end)
                 fs (match fs with [] => true | _ => endTop s end)
                 (err s) (lit s) (top s) (savedError s) in
      store v s
  end.

Definition end_string (s : scanner) : scanner :=
  match unquote (lit s) with
  | Some t => store (VString t) (set_step stateEndValue s)
  | None => phasePanic s
  end.

Definition end_number (s : scanner) : scanner :=
  let s := if out_of_range (lit s)
           then saveError (UnmarshalTypeError ("number " ++ lit s) "float64") s
           else s in
  store (VFloat64 (lit s)) s.

Definition end_literal (v : any) (s : scanner) : scanner :=
  store v (set_step stateEndValue s).

Definition stateEndTop_ (s : scanner) (c : ascii) : scanner :=
  if isSpace c then s else scan_error s c "after top-level value".

Definition stateEndValue_ (s : scanner) (c : ascii) : scanner :=
  match parseState s with
  | [] =>
      stateEndTop_
        (Scanner stateEndTop [] true (err s) (lit s) (top s) (savedError s)) c
  | f :: _ =>
      if isSpace c then set_step stateEndValue s
      else
        match phase f with
        | parseObjectKey =>
            if Ascii.eqb c ":"
            then set_step stateBeginValue (set_phase parseObjectValue s)
            else scan_error s c "after object key"
        | parseObjectValue =>
            if Ascii.eqb c ","
            then set_step stateBeginString (set_phase parseObjectKey s)
            else if Ascii.eqb c "}" then popParseState s
            else scan_error s c "after object key:value pair"
        | parseArrayValue =>
            if Ascii.eqb c "," then set_step stateBeginValue s
            else if Ascii.eqb c "]" then popParseState s
            else scan_error s c "after array element"
        end
  end.

Definition stateBeginValue_ (s : scanner) (c : ascii) : scanner :=
  if isSpace c then s
  else if Ascii.eqb c "{" then
    pushParseState (set_step stateBeginStringOrEmpty s) c parseObjectKey
  else if Ascii.eqb c "[" then
    pushParseState (set_step stateBeginValueOrEmpty s) c parseArrayValue
  else if Ascii.eqb c dquote then set_lit EmptyString (set_step stateInString s)
  else if Ascii.eqb c "-" then set_lit (str1 c) (set_step stateNeg s)
  else if Ascii.eqb c "0" then set_lit (str1 c) (set_step state0 s)
  else if Ascii.eqb c "t" then set_step stateT s
  else if Ascii.eqb c "f" then set_step stateF s
  else if Ascii.eqb c "n" then set_step stateN s
  else if between 49 57 c then set_lit (str1 c) (set_step state1 s)
  else scan_error s c "looking for beginning of value".

Definition stateBeginValueOrEmpty_ (s : scanner) (c : ascii) : scanner :=
  if isSpace c then s
  else if Ascii.eqb c "]" then stateEndValue_ s c
  else stateBeginValue_ s c.

Definition stateBeginString_ (s : scanner) (c : ascii) : scanner :=
  if isSpace c then s
  else if Ascii.eqb c dquote then set_lit EmptyString (set_step stateInString s)
  else scan_error s c "looking for beginning of object key string".

Definition stateBeginStringOrEmpty_ (s : scanner) (c : ascii) : scanner :=
  if isSpace c then s
  else if Ascii.eqb c "}" then stateEndValue_ (set_phase parseObjectValue s) c
  else stateBeginString_ s c.

Definition stateInString_ (s : scanner) (c : ascii) : scanner :=
  if Ascii.eqb c dquote then end_string s
  else if Ascii.eqb c "\" then push_lit c (set_step stateInStringEsc s)
  else if ord c <? 32 then scan_error s c "in string literal"
  else push_lit c s.

Definition stateInStringEsc_ (s : scanner) (c : ascii) : scanner :=
  if Ascii.eqb c "b" || Ascii.eqb c "f" || Ascii.eqb c "n" || Ascii.eqb c "r"
     || Ascii.eqb c "t" || Ascii.eqb c "\" || Ascii.eqb c "/"
     || Ascii.eqb c dquote
  then push_lit c (set_step stateInString s)
  else if Ascii.eqb c "u" then push_lit c (set_step stateInStringEscU s)
  else scan_error s c "in string escape code".

Definition isHex (c : ascii) : bool :=
  isDigit c || between 97 102 c || between 65 70 c.

Definition stateInStringEscU_ (next : stepfn) (s : scanner) (c : ascii)
  : scanner :=
  if isHex c then push_lit c (set_step next s)
  else scan_error s c "in \u hexadecimal character escape".

Definition stateNeg_ (s : scanner) (c : ascii) : scanner :=
  if Ascii.eqb c "0" then push_lit c (set_step state0 s)
  else if between 49 57 c then push_lit c (set_step state1 s)
  else scan_error s c "in numeric literal".

Definition state0_ (s : scanner) (c : ascii) : scanner :=
  if Ascii.eqb c "." then push_lit c (set_step stateDot s)
  else if Ascii.eqb c "e" || Ascii.eqb c "E" then push_lit c (set_step stateE s)
  else stateEndValue_ (end_number s) c.

Definition state1_ (s : scanner) (c : ascii) : scanner :=
  if isDigit c then push_lit c (set_step state1 s) else state0_ s c.

Definition stateDot_ (s : scanner) (c : ascii) : scanner :=
  if isDigit c then push_lit c (set_step stateDot0 s)
  else scan_error s c "after decimal point in numeric literal".

Definition stateDot0_ (s : scanner) (c : ascii) : scanner :=
  if isDigit c then push_lit c s
  else if Ascii.eqb c "e" || Ascii.eqb c "E" then push_lit c (set_step stateE s)
  else stateEndValue_ (end_number s) c.

Definition stateESign_ (s : scanner) (c : ascii) : scanner :=
  if isDigit c then push_lit c (set_step stateE0 s)
  else scan_error s c "in exponent of numeric literal".

Definition stateE_ (s : scanner) (c : ascii) : scanner :=
  if Ascii.eqb c "+" || Ascii.eqb c "-" then push_lit c (set_step stateESign s)
  else stateESign_ s c.

Definition stateE0_ (s : scanner) (c : ascii) : scanner :=
  if isDigit c then push_lit c s else stateEndValue_ (end_number s) c.

(** The states inside [true], [false] and [null]: [want] is the byte that
    continues the literal named [word]. *)
Definition stateLit_ (word : string) (want : ascii)
    (continue : scanner -> scanner) (s : scanner) (c : ascii) : scanner :=
  if Ascii.eqb c want then continue s
  else scan_error s c
         ("in literal " ++ word ++ " (expecting '" ++ str1 want ++ "')").

(** [s.step(s, c)] *)
Definition scan_byte (s : scanner) (c : ascii) : scanner :=
  match step s with
  | stateBeginValueOrEmpty => stateBeginValueOrEmpty_ s c
  | stateBeginValue => stateBeginValue_ s c
  | stateBeginStringOrEmpty => stateBeginStringOrEmpty_ s c
  | stateBeginString => stateBeginString_ s c
  | stateEndValue => stateEndValue_ s c
  | stateEndTop => stateEndTop_ s c
  | stateInString => stateInString_ s c
  | stateInStringEsc => stateInStringEsc_ s c
  | stateInStringEscU => stateInStringEscU_ stateInStringEscU1 s c
  | stateInStringEscU1 => stateInStringEscU_ stateInStringEscU12 s c
  | stateInStringEscU12 => stateInStringEscU_ stateInStringEscU123 s c
  | stateInStringEscU123 => stateInStringEscU_ stateInString s c
  | stateNeg => stateNeg_ s c
  | state1 => state1_ s c
  | state0 => state0_ s c
  | stateDot => stateDot_ s c
  | stateDot0 => stateDot0_ s c
  | stateE => stateE_ s c
  | stateESign => stateESign_ s c
  | stateE0 => stateE0_ s c
  | stateT => stateLit_ "true" "r" (set_step stateTr) s c
  | stateTr => stateLit_ "true" "u" (set_step stateTru) s c
  | stateTru => stateLit_ "true" "e" (end_literal (VBool true)) s c
  | stateF => stateLit_ "false" "a" (set_step stateFa) s c
  | stateFa => stateLit_ "false" "l" (set_step stateFal) s c
  | stateFal => stateLit_ "false" "s" (set_step stateFals) s c
  | stateFals => stateLit_ "false" "e" (end_literal (VBool false)) s c
  | stateN => stateLit_ "null" "u" (set_step stateNu) s c
  | stateNu => stateLit_ "null" "l" (set_step stateNul) s c
  | stateNul => stateLit_ "null" "l" (end_literal VNil) s c
  | stateError => s
  end.

(** [checkValid]: feed every byte, then [eof]. *)
Fixpoint scan (s : scanner) (data : string) : scanner :=
  match data with
  | EmptyString => s
  | String c rest => scan (scan_byte s c) rest
  end.

Definition eof (s : scanner) : error + scanner :=
  match err s with
  | Some e => inl e
  | None =>
      if endTop s then inr s
      else
        let s := scan_byte s " " in
        if endTop s then inr s
        else match err s with
             | Some e => inl e
             | None => inl (SyntaxError "unexpected end of JSON input")
             end
  end.

Definition checkValid (data : string) : error + scanner :=
  eof (scan reset data).

(** [data] is a valid JSON text and [v] is its top-level value. *)
Definition Valid (data : string) (v : any) : Prop :=
  exists s, checkValid data = inr s /\ top s = Some v.

Definition mapType : string := "map[string]interface {}".

(** [json.Unmarshal(data, &m)] for [m] a nil [map[string]interface{}]:
    the error, or the map afterwards. A syntax error anywhere in [data]
    is reported before anything is stored. The JSON [null] leaves the map
    nil and is no error; any other top-level value than an object is an
    [UnmarshalTypeError]; a number out of range inside the object is
    one as well, after decoding has gone on. *)
Definition Unmarshal (data : string) : error + gmap string any :=
  match checkValid data with
  | inl e => inl e
  | inr s =>
      match top s with
      | Some (VMap m) =>
          match savedError s with
          | Some e => inl e
          | None => inr m
          end
      | Some VNil => inr ∅
      | Some (VSlice _) => inl (UnmarshalTypeError "array" mapType)
      | Some (VString _) => inl (UnmarshalTypeError "string" mapType)
      | Some (VBool _) => inl (UnmarshalTypeError "bool" mapType)
      | Some (VFloat64 _) => inl (UnmarshalTypeError "number" mapType)
      | _ => inl (errorString phasePanicMsg)
      end
  end.

(** [json.Marshal v]: the JSON text that encodes [v], identified by the
    value it encodes. *)
Inductive encoded : Type := Marshal (v : any).

End json.

(** ** Package net/http *)

Module http.

Definition StatusOK : Z := 200.
Definition StatusBadRequest : Z := 400.
Definition StatusInternalServerError : Z := 500.

Record Request : Type := {
  Method : string;
  URL : string;
  Header : gmap string (list string);
  Body : json.encoded
}.

(** What [ioutil.ReadAll] finds in a response body: the bytes, and the
    error that ended the read unless it was the end of the stream. *)
Record ReadCloser : Type := {
  data : string;
  failure : option error
}.

Record Response : Type := {
  Status : string;          (* e.g. "200 OK" *)
  StatusCode : Z;           (* e.g. 200 *)
  RespHeader : gmap string (list string);
  RespBody : ReadCloser
}.

(** The bytes allowed in a method name (RFC 7230 token). *)
Definition isTokenByte (c : ascii) : bool :=
  between 48 57 c || between 65 90 c || between 97 122 c
  || existsb (Ascii.eqb c)
       ["!"; "#"; "$"; "%"; "&"; "'"; "*"; "+"; "-"; "."; "^"; "_"; "`"; "|"; "~"]%char.

Definition validMethod (method : string) : bool :=
  match method with
  | EmptyString => false
  | _ => forallb isTokenByte (list_ascii_of_string method)
  end.

Definition containsCTLByte (s : string) : bool :=
  existsb (fun c => (ord c <? 32) || (ord c =? 127)) (list_ascii_of_string s).

(** [http.NewRequest(method, url, body)]. It fails on a method that is not
    a token and on a URL that [url.Parse] rejects; of the latter's rules
    the one on control bytes is modelled, which is the only one a URL made
    of printable ASCII with a scheme, a host name and a plain path can
    meet. The new request has no header fields. *)
Definition NewRequest (method url : string) (body : json.encoded)
  : error + Request :=
  if negb (validMethod method)
  then inl (errorString ("net/http: invalid method " ++ quoted method))
  else if containsCTLByte url
  then inl (errorString ("parse " ++ quoted url
                         ++ ": net/url: invalid control character in URL"))
  else inr {| Method := method; URL := url; Header := ∅; Body := body |}.

(** [req.Header.Set(key, value)], for a key in canonical form. *)
Definition Header_Set (key value : string) (req : Request) : Request :=
  {| Method := Method req; URL := URL req;
     Header := <[key := [value]]> (Header req); Body := Body req |}.

(** [h.Get(key)], for a key in canonical form: the first value, or the
    empty string. *)
Definition Header_Get (key : string) (h : gmap string (list string)) : string :=
  match h !! key with
  | Some (v :: _) => v
  | _ => EmptyString
  end.

(** [ioutil.ReadAll(resp.Body)] *)
Definition ReadAll (r : ReadCloser) : error + string :=
  match failure r with
  | Some e => inl e
  | None => inr (data r)
  end.

(** ** The client and its redirects

    [client.Do] on the zero-value [http.Client] of line 97 does not stop at
    the first response: with no [CheckRedirect] of its own it makes up to
    ten requests in a row, following the 301, 302, 303, 307 and 308
    responses that name a [Location]; a redirect status without one ends
    the call with that response. One call can so issue several HTTP
    requests; each of them, a request the client hands to its transport, is
    a [Hop]. Of a hop the method, the place it goes to and the body it
    carries are recorded: the first goes to the URL of the request, a later
    one to the [Location] it follows, as the header gave it (its resolution
    against the previous URL, and the refusal of one that does not parse,
    are not modelled, nor are the header fields of a later hop). *)
Record Hop : Type := {
  HopMethod : string;
  HopTarget : string;
  HopBody : option json.encoded
}.

(** [redirectBehavior(reqMethod, resp, ireq)]: the method of the next hop,
    whether there is one, and whether it carries the body again. The first
    request [ireq] is the one [http.NewRequest] built from a
    [*bytes.Buffer], which has a [GetBody], so 307 and 308 always
    redirect. *)
Definition redirectBehavior (reqMethod : string) (resp : Response)
  : string * bool * bool :=
  let st := StatusCode resp in
  if (st =? 301) || (st =? 302) || (st =? 303)
  then (if String.eqb reqMethod "GET" || String.eqb reqMethod "HEAD"
        then reqMethod else "GET", true, false)
  else if (st =? 307) || (st =? 308)
  then (reqMethod, true, true)
  else (EmptyString, false, false).

(** The error of [defaultCheckRedirect] once ten requests have been made,
    as [client.Do] reports it for the first request's method. *)
Definition stoppedAfter10 (loc : string) : error :=
  errorString ("Post " ++ quoted loc ++ ": stopped after 10 redirects").

(** The loop of the client's [do]. [net n] is what the transport makes of the
    [n]-th request of this call, [allowed] the number of further requests
    that [defaultCheckRedirect] lets through after this one. The result is
    what [client.Do] returns, and the requests that went out. *)
Fixpoint follow (allowed : nat) (net : nat -> error + Response)
    (body : json.encoded) (n : nat) (req : Hop)
  : (error + Response) * list Hop :=
  match net n with
  | inl err => (inl err, [req])
  | inr resp =>
      let '(redirectMethod, shouldRedirect, includeBody) :=
        redirectBehavior (HopMethod req) resp in
      if negb shouldRedirect then (inr resp, [req])
      else
        let loc := Header_Get "Location" (RespHeader resp) in
        if String.eqb loc EmptyString then (inr resp, [req])
        else
          match allowed with
          | O => (inl (stoppedAfter10 loc), [req])
          | S allowed' =>
              let next := {| HopMethod := redirectMethod; HopTarget := loc;
                             HopBody := if includeBody then Some body
                                        else None |} in
              let '(r, l) := follow allowed' net body (S n) next in
              (r, req :: l)
          end
  end.

Definition Do (net : nat -> error + Response) (req : Request)
  : (error + Response) * list Hop :=
  follow 9 net (Body req) 0
    {| HopMethod := Method req; HopTarget := URL req;
       HopBody := Some (Body req) |}.

End http.

(** ** The world outside the handler

    The process environment; the network, as what the transport makes of
    the [n]-th HTTP request that the client issues for a request
    it was handed (a response, or the error as [client.Do] reports it); the
    requests the client has been handed; the HTTP requests it has issued;
    and the log. *)

Inductive logline : Type :=
| Println (s : string)
| Printf (format : string) (a : list operand)
| PrintfJSON (format : string) (j : json.encoded).

Record World : Type := {
  environ : gmap string string;
  exchange : http.Request -> nat -> error + http.Response;
  sent : list http.Request;
  issued : list http.Hop;
  logged : list logline
}.

(** What [client.Do(req)] returns in a world: the response that ends the
    chain of redirects, or the error that does. *)
Definition RoundTrip (w : World) (req : http.Request)
  : error + http.Response :=
  fst (http.Do (exchange w req) req).

(** The HTTP requests [client.Do(req)] issues in a world. *)
Definition hops (w : World) (req : http.Request) : list http.Hop :=
  snd (http.Do (exchange w req) req).

Definition M (A : Type) : Type := World -> A * World.

#[global] Instance M_ret : MRet M := fun A a w => (a, w).
#[global] Instance M_bind : MBind M :=
  fun A B k m w => let '(a, w') := m w in k a w'.

Definition log (l : logline) : M unit :=
  fun w => (tt, {| environ := environ w; exchange := exchange w;
                   sent := sent w; issued := issued w;
                   logged := logged w ++ [l] |}).

(** [os.Getenv]: the empty string for a variable that is not set. *)
Definition Getenv (k : string) : M string :=
  fun w => (default EmptyString (environ w !! k), w).

(** [client.Do(req)] on a fresh [http.Client]: the request is handed to the
    client, which is recorded in [sent]; the client makes its exchanges with
    the network, redirects included, each of which is recorded in [issued];
    the outcome of the last one is the outcome of the call. *)
Definition client_Do (req : http.Request) : M (error + http.Response) :=
  fun w => (RoundTrip w req,
            {| environ := environ w; exchange := exchange w;
               sent := sent w ++ [req]; issued := issued w ++ hops w req;
               logged := logged w |}).

(** ** fiber *)

Module fiber.

(** How [c.BodyParser] reads the body depends on the request's
    Content-Type: a JSON media type selects the configured JSON decoder,
    [json.Unmarshal] by default as in [fiber.New()]; for any other the
    result of the framework's form, multipart or XML handling (or its
    refusal) is part of the request as the handler sees it. *)
Inductive bodyDecoder : Type :=
| JSONDecoder
| OtherDecoder (out : error + gmap string any).

Record Ctx : Type := {
  Body : string;
  decoder : bodyDecoder;
  status : Z                  (* status of the response under construction *)
}.

(** The context of a fresh request: the response status starts at 200. *)
Definition AcquireCtx (body : string) (d : bodyDecoder) : Ctx :=
  {| Body := body; decoder := d; status := http.StatusOK |}.

Definition BodyParser (c : Ctx) : error + gmap string any :=
  match decoder c with
  | JSONDecoder => json.Unmarshal (Body c)
  | OtherDecoder out => out
  end.

(** The response as the caller is sent it: its status and the object that
    is its JSON body. The empty map stands for a response without a body;
    the handler never hands an empty [fiber.Map] to [c.JSON]. *)
Record Reply : Type := {
  code : Z;
  body : gmap string any
}.

Definition Status (st : Z) (c : Ctx) : Ctx :=
  {| Body := Body c; decoder := decoder c; status := st |}.

(** The status line the server writes: a status of 0 was never set and goes
    out as 200 ([ResponseHeader.StatusCode] of fasthttp). *)
Definition StatusCode (st : Z) : Z :=
  if st =? 0 then http.StatusOK else st.

(** The statuses with which the server writes no body, whatever the handler
    stored ([mustSkipBody] of fasthttp): 1xx, 204 and 304. *)
Definition mustSkipBody (st : Z) : bool :=
  ((100 <=? st) && (st <? 200)) || (st =? 204) || (st =? 304).

(** [c.JSON(m)] stores the encoding of [m] as the body of the response; what
    is sent is the response with the status set so far. *)
Definition JSON (m : gmap string any) (c : Ctx) : Reply :=
  {| code := StatusCode (status c);
     body := if mustSkipBody (status c) then ∅ else m |}.

End fiber.

(** ** The handler

    [chatHandler] is one Go function; it is cut here into three parts that
    call each other in tail position, where the Go code goes on after an
    early return did not happen. Every [return c.Status(..).JSON(..)] is the
    reply of the run; the [error] these calls return is always nil, as a map
    with one string value always encodes. [defer resp.Body.Close()] has no
    effect on what is observed here. *)

Definition nl : string := str1 newline.

Definition apiURL : string :=
  "https://integrate.api.nvidia.com/v1/chat/completions".

Definition systemPrompt : string :=
  "You are an AI that provides direct answers to coding questions.".

(** The [requestPayload] literal of lines 63-78. *)
Definition requestPayload (question : string) : gmap string any :=
  <["model" := VString "meta/llama3-70b-instruct"]>
  (<["messages" := VMapSlice
       [ <["role" := "system"]> (<["content" := systemPrompt]> ∅);
         <["role" := "user"]> (<["content" := question]> ∅) ]]>
  (<["temperature" := VFloat64 "0.5"]>
  (<["top_p" := VInt 1]>
  (<["max_tokens" := VInt 1024]> ∅)))).

Definition errorReply (st : Z) (msg : string) (c : fiber.Ctx) : fiber.Reply :=
  fiber.JSON {["error" := VString msg]} (fiber.Status st c).

Definition unexpectedStructure (c : fiber.Ctx) : fiber.Reply :=
  errorReply http.StatusInternalServerError
    "Unexpected response structure from API" c.

(** [chatHandler], lines 126-167: the body of a 200 response is parsed and
    the answer taken out of it. *)
Definition extractAnswer (c : fiber.Ctx) (body : string) : M fiber.Reply :=
  match json.Unmarshal body with
  | inl err =>
      _ ← log (Printf ("Error parsing JSON response: %v" ++ nl) [OError err]);
      mret (errorReply http.StatusInternalServerError
              (Sprintf "Error parsing JSON response: %v" [OError err]) c)
  | inr result =>
      let '(choices, ok) := assert_slice (result !! "choices") in
      if negb ok || (length choices =? 0)%nat then mret (unexpectedStructure c)
      else
        let '(firstChoice, ok) := assert_map (choices !! 0%nat) in
        if negb ok then mret (unexpectedStructure c)
        else
          let '(message, ok) := assert_map (firstChoice !! "message") in
          if negb ok then mret (unexpectedStructure c)
          else
            let '(answer, ok) := assert_string (message !! "content") in
            if negb ok then mret (unexpectedStructure c)
            else mret (fiber.JSON {["answer" := VString answer]} c)
  end.

(** [chatHandler], lines 80-124: the request is built and sent, the response
    read, and a status other than 200 passed on. *)
Definition askUpstream (c : fiber.Ctx) (apiKey question : string)
  : M fiber.Reply :=
  let jsonValue := json.Marshal (VMap (requestPayload question)) in
  _ ← log (PrintfJSON ("Sending request to NVIDIA NIM API: %s" ++ nl) jsonValue);
  match http.NewRequest "POST" apiURL jsonValue with
  | inl err =>
      _ ← log (Printf ("Error creating request: %v" ++ nl) [OError err]);
      mret (errorReply http.StatusInternalServerError
              (Sprintf "Error creating request: %v" [OError err]) c)
  | inr req =>
      let req := http.Header_Set "Content-Type" "application/json" req in
      let req := http.Header_Set "Authorization" ("Bearer " ++ apiKey) req in
      r ← client_Do req;
      match r with
      | inl err =>
          _ ← log (Printf ("Error sending request: %v" ++ nl) [OError err]);
          mret (errorReply http.StatusInternalServerError
                  (Sprintf "Error sending request: %v" [OError err]) c)
      | inr resp =>
          match http.ReadAll (http.RespBody resp) with
          | inl err =>
              _ ← log (Printf ("Error reading response body: %v" ++ nl)
                         [OError err]);
              mret (errorReply http.StatusInternalServerError
                      (Sprintf "Error reading response body: %v" [OError err]) c)
          | inr body =>
              _ ← log (Printf ("Response status: %s" ++ nl)
                         [OString (http.Status resp)]);
              _ ← log (Printf ("Response body: %s" ++ nl) [OString body]);
              if negb (http.StatusCode resp =? http.StatusOK)
              then mret (errorReply (http.StatusCode resp)
                           (Sprintf ("API returned non-200 status: %s" ++ nl
                                     ++ "Body: %s")
                              [OString (http.Status resp); OString body]) c)
              else extractAnswer c body
          end
      end
  end.

(** [chatHandler], lines 40-78: the body is decoded and the question
    checked. *)
Definition chatHandler (c : fiber.Ctx) : M fiber.Reply :=
  _ ← log (Println "Received request for chat");
  apiKey ← Getenv "NVIDIA_API_KEY";
  match fiber.BodyParser c with
  | inl err =>
      _ ← log (Printf ("Error parsing request body: %v" ++ nl) [OError err]);
      mret (errorReply http.StatusBadRequest "Invalid request body" c)
  | inr requestData =>
      let '(question, ok) := assert_string (requestData !! "question") in
      if negb ok || String.eqb question EmptyString
      then mret (errorReply http.StatusBadRequest
                   "Invalid question format or empty question" c)
      else askUpstream c apiKey question
  end.

(** * The browser side: src/App.jsx

    JavaScript values as far as [handleSubmit] meets them: what a JSON
    response body parses to, the objects axios resolves and rejects with,
    and strings. A string is its sequence of UTF-16 code units; a number is an
    IEEE 754 double. *)

Module js.

#[warnings="-register-all"]
Inductive value : Type :=
| Undefined
| Null
| Boolean (b : bool)
| Number (f : spec_float)
| Str (s : list N)
| Object (props : gmap string value)
| Array (l : list value).

(** A string literal of the source, all ASCII. *)
Definition lit (s : string) : list N :=
  map N_of_ascii (list_ascii_of_string s).

Definition text (s : string) : value := Str (lit s).

(** ToBoolean, as [if (v)], [!v] and [v || w] apply it. *)
Definition truthy (v : value) : bool :=
  match v with
  | Undefined | Null => false
  | Boolean b => b
  | Number (S754_zero _) | Number S754_nan => false
  | Number _ => true
  | Str s => negb (Nat.eqb (length s) 0)
  | Object _ | Array _ => true
  end.

(** [v || w] *)
Definition or (v w : value) : value := if truthy v then v else w.

Inductive completion (A : Type) : Type :=
| Normal (a : A)
| Throw (e : value).
Arguments Normal {A} a.
Arguments Throw {A} e.

#[global] Instance completion_ret : MRet completion := fun A a => Normal a.
#[global] Instance completion_bind : MBind completion :=
  fun A B k m => match m with Normal a => k a | Throw e => Throw e end.

(** The TypeError of a property read on [undefined] or [null]; like every
    error the language itself throws it has no [response] and no [request]
    property. *)
Definition TypeError : value := Object {["name" := text "TypeError"]}.

(** [v.k] for a property name that no built-in prototype defines, as are
    the five names App.jsx reads: [data], [answer], [error], [response],
    [request]. Reading from [undefined] or [null] throws; an object yields
    the property or [undefined]; any other value yields [undefined]. *)
Definition get (v : value) (k : string) : completion value :=
  match v with
  | Undefined | Null => Throw TypeError
  | Object props => Normal (default Undefined (props !! k))
  | _ => Normal Undefined
  end.

(** The code units that [String.prototype.trim] strips: WhiteSpace and
    LineTerminator of the language. *)
Definition isWhiteSpace (u : N) : bool :=
  ((9 <=? u) && (u <=? 13) || (u =? 32) || (u =? 160) || (u =? 5760)
   || (8192 <=? u) && (u <=? 8202) || (u =? 8232) || (u =? 8233)
   || (u =? 8239) || (u =? 8287) || (u =? 12288) || (u =? 65279))%N.

Fixpoint trimStart (s : list N) : list N :=
  match s with
  | u :: t => if isWhiteSpace u then trimStart t else s
  | [] => []
  end.

Definition trim (s : list N) : list N :=
  rev (trimStart (rev (trimStart s))).

End js.

(** ** The component's state and [handleSubmit]

    The three [useState] cells are the fields of [State]; a [setX] call is
    the update of a field, and [setMessages(prev => [...prev, m])] appends to
    the messages of the state it finds. [handleSubmit] runs up to its [await]
    ([submit]) and goes on when the promise settles ([settle]), on the state
    as it then is. [e.preventDefault()] and the rendering are not part of
    this. *)

Module App.

Record Message : Type := {
  role : list N;
  content : js.value
}.

Record State : Type := {
  messages : list Message;
  input : list N;
  isLoading : bool
}.

(** How the promise of [axios.post] settles. *)
Inductive settled : Type :=
| Fulfilled (response : js.value)
| Rejected (error : js.value).

(** The page's surroundings: the server as axios sees it, the posts made,
    and what went to [console.error]. *)
Record Browser : Type := {
  post : list N -> js.value -> settled;
  posted : list (list N * js.value);
  console : list (list js.value)
}.

(** The outcome of a call: the state and surroundings it leaves, and the
    exception that escaped it, if one did. *)
Definition Run : Type := State * Browser * option js.value.

Definition state_of (r : Run) : State := fst (fst r).
Definition browser_of (r : Run) : Browser := snd (fst r).
Definition thrown_of (r : Run) : option js.value := snd r.

Definition chatURL : list N := js.lit "http://localhost:8000/chat/".

Definition defaultMessage : js.value :=
  js.text "An error occurred while fetching the answer.".

Definition noResponseMessage : js.value :=
  js.text "No response received from the server.".

Definition userMessage (input : list N) : Message :=
  {| role := js.lit "user"; content := js.Str input |}.

Definition botMessage (content : js.value) : Message :=
  {| role := js.lit "bot"; content := content |}.

Definition addMessage (m : Message) (st : State) : State :=
  {| messages := messages st ++ [m]; input := input st;
     isLoading := isLoading st |}.

Definition setInput (s : list N) (st : State) : State :=
  {| messages := messages st; input := s; isLoading := isLoading st |}.

Definition setIsLoading (b : bool) (st : State) : State :=
  {| messages := messages st; input := input st; isLoading := b |}.

Definition console_error (args : list js.value) (b : Browser) : Browser :=
  {| post := post b; posted := posted b; console := console b ++ [args] |}.

(** Lines 38-42: the bot's message is added and the loading flag cleared. *)
Definition finish (content : js.value) (st : State) (b : Browser) : Run :=
  (setIsLoading false (addMessage (botMessage content) st), b, None).

(** Lines 30-37: the [catch] block chooses the text. An exception thrown in
    it leaves the function at once. *)
Definition catch (error : js.value) (st : State) (b : Browser) : Run :=
  let b := console_error [js.text "Error fetching answer:"; error] b in
  let chosen : js.completion js.value :=
    response ← js.get error "response";
    if js.truthy response then
      data ← js.get response "data";
      e ← js.get data "error";
      mret (js.or e defaultMessage)
    else
      request ← js.get error "request";
      mret (if js.truthy request then noResponseMessage else defaultMessage) in
  match chosen with
  | js.Normal errorMessage => finish errorMessage st b
  | js.Throw e => (st, b, Some e)
  end.

(** Lines 26-42: from the settling of the promise on. *)
Definition settle (o : settled) (st : State) (b : Browser) : Run :=
  match o with
  | Fulfilled response =>
      match data ← js.get response "data"; js.get data "answer" with
      | js.Normal answer => finish answer st b
      | js.Throw e => catch e st b
      end
  | Rejected error => catch error st b
  end.

(** Lines 21-24: the state while the request is under way. *)
Definition pending (st : State) : State :=
  setIsLoading true (setInput [] (addMessage (userMessage (input st)) st)).

Definition questionData (input : list N) : js.value :=
  js.Object {["question" := js.Str input]}.

(** [handleSubmit], lines 17-43. *)
Definition handleSubmit (st : State) (b : Browser) : Run :=
  if negb (js.truthy (js.Str (js.trim (input st)))) then (st, b, None)
  else
    let b1 := {| post := post b;
                 posted := posted b ++ [(chatURL, questionData (input st))];
                 console := console b |} in
    settle (post b chatURL (questionData (input st))) (pending st) b1.

End App.

(** * Vocabulary of the statements *)

Definition logging (l : logline) (w : World) : World := snd (log l w).

Definition apiKeyOf (w : World) : string :=
  default EmptyString (environ w !! "NVIDIA_API_KEY").

(** The request [askUpstream] hands to the client. *)
Definition upstreamRequest (apiKey question : string) : http.Request :=
  http.Header_Set "Authorization" ("Bearer " ++ apiKey)
    (http.Header_Set "Content-Type" "application/json"
       {| http.Method := "POST"; http.URL := apiURL; http.Header := ∅;
          http.Body := json.Marshal (VMap (requestPayload question)) |}).

(** The first HTTP request the client issues for [req]. *)
Definition firstHop (req : http.Request) : http.Hop :=
  {| http.HopMethod := http.Method req; http.HopTarget := http.URL req;
     http.HopBody := Some (http.Body req) |}.

(** The response is one the client follows: a redirect status with a
    [Location]. *)
Definition redirects (reqMethod : string) (resp : http.Response) : bool :=
  snd (fst (http.redirectBehavior reqMethod resp))
  && negb (String.eqb (http.Header_Get "Location" (http.RespHeader resp))
             EmptyString).

(** The request body decodes to an object whose [question] is the non-empty
    string [question]. *)
Definition validated (c : fiber.Ctx) (question : string) : Prop :=
  exists m, fiber.BodyParser c = inr m
            /\ m !! "question" = Some (VString question)
            /\ question <> EmptyString.

(** The client returns [resp] for the request for [question], and the body
    of [resp] reads as [body]. *)
Definition responds (w : World) (question : string)
    (resp : http.Response) (body : string) : Prop :=
  RoundTrip w (upstreamRequest (apiKeyOf w) question) = inr resp
  /\ http.ReadAll (http.RespBody resp) = inr body.

(** [choices[0].message.content] of [result] is the string [a]. *)
Definition has_content (result : gmap string any) (a : string) : Prop :=
  exists firstChoice rest message,
    result !! "choices" = Some (VSlice (VMap firstChoice :: rest))
    /\ firstChoice !! "message" = Some (VMap message)
    /\ message !! "content" = Some (VString a).

(** [result] lacks a non-empty [choices] array, or
    [choices[0].message.content] as a string: the level at which the walk
    of lines 137-163 stops. *)
Inductive misshaped (result : gmap string any) : Prop :=
| choices_not_array :
    (forall l, result !! "choices" <> Some (VSlice l)) -> misshaped result
| choices_empty :
    result !! "choices" = Some (VSlice []) -> misshaped result
| choice_not_object v rest :
    result !! "choices" = Some (VSlice (v :: rest)) ->
    (forall m, v <> VMap m) -> misshaped result
| message_not_object firstChoice rest :
    result !! "choices" = Some (VSlice (VMap firstChoice :: rest)) ->
    (forall m, firstChoice !! "message" <> Some (VMap m)) -> misshaped result
| content_not_string firstChoice rest message :
    result !! "choices" = Some (VSlice (VMap firstChoice :: rest)) ->
    firstChoice !! "message" = Some (VMap message) ->
    (forall a, message !! "content" <> Some (VString a)) -> misshaped result.

(** The object of a reply has the one field [answer], or the one field
    [error], holding a string. *)
Definition answer_only (b : gmap string any) : Prop :=
  exists a, b = {["answer" := VString a]}.

Definition error_only (b : gmap string any) : Prop :=
  exists e, b = {["error" := VString e]}.

(** The values the decoder builds: every dynamic type but the two that only
    the payload literal has. *)
Definition decoder_value (v : any) : Prop :=
  match v with VInt _ | VMapSlice _ => False | _ => True end.

Definition top_decoded (s : json.scanner) : Prop :=
  forall v, json.top s = Some v -> decoder_value v.

(** The name [json.Unmarshal] gives, in its error, to a top-level value it
    cannot store in a map. *)
Definition rejected_as (v : any) : option string :=
  match v with
  | VSlice _ => Some "array"
  | VString _ => Some "string"
  | VFloat64 _ => Some "number"
  | VBool _ => Some "bool"
  | _ => None
  end.

(** The guard of [handleSubmit] in App.jsx, [!input.trim()], on byte strings
    of ASCII: every byte is blank. *)
Definition whitespace_only (s : string) : bool :=
  forallb (fun c => between 9 13 c || (ord c =? 32)) (list_ascii_of_string s).

Definition is2xx (st : Z) : bool := (200 <=? st) && (st <? 300).

(** What a run writes in the log after the line of receipt, by what the
    network does. *)
Definition extract_entries (body : string) : list logline :=
  match json.Unmarshal body with
  | inl err => [Printf ("Error parsing JSON response: %v" ++ nl) [OError err]]
  | inr _ => []
  end.

Definition exchange_entries (question : string)
    (r : error + http.Response) : list logline :=
  PrintfJSON ("Sending request to NVIDIA NIM API: %s" ++ nl)
    (json.Marshal (VMap (requestPayload question)))
  :: match r with
     | inl err => [Printf ("Error sending request: %v" ++ nl) [OError err]]
     | inr resp =>
         match http.ReadAll (http.RespBody resp) with
         | inl err =>
             [Printf ("Error reading response body: %v" ++ nl) [OError err]]
         | inr body =>
             Printf ("Response status: %s" ++ nl) [OString (http.Status resp)]
             :: Printf ("Response body: %s" ++ nl) [OString body]
             :: (if http.StatusCode resp =? http.StatusOK
                 then extract_entries body else [])
         end
     end.

(** The errors whose handling throws: [undefined] and [null], and those
    whose [response] is truthy but has no [data] to read [error] from. *)
Definition without_data (error : js.value) : Prop :=
  error = js.Undefined \/ error = js.Null
  \/ exists response,
       js.get error "response" = js.Normal response
       /\ js.truthy response = true
       /\ (js.get response "data" = js.Normal js.Undefined
           \/ js.get response "data" = js.Normal js.Null).

(** ** Sample requests and worlds *)

Definition question_body (question : string) : string :=
  "{" ++ quoted "question" ++ ":" ++ quoted question ++ "}".

Definition verbose_body : string :=
  "{" ++ quoted "user" ++ ":" ++ quoted "bob" ++ ", " ++ quoted "question"
  ++ ":" ++ quoted "hi" ++ ", " ++ quoted "temperature" ++ ":2}".

Definition body42 : string :=
  "{" ++ quoted "choices" ++ ":[{" ++ quoted "message" ++ ":{"
  ++ quoted "content" ++ ":" ++ quoted "42" ++ "}}]}".

Definition ask (question : string) : fiber.Ctx :=
  fiber.AcquireCtx (question_body question) fiber.JSONDecoder.

Definition response (st : Z) (line body : string) : http.Response :=
  {| http.Status := line; http.StatusCode := st; http.RespHeader := ∅;
     http.RespBody := {| http.data := body; http.failure := None |} |}.

(** A world whose network gives every HTTP request for [req] the outcome
    [net req]. *)
Definition world (net : http.Request -> error + http.Response) : World :=
  {| environ := {["NVIDIA_API_KEY" := "nvapi-0"]};
     exchange := fun req _ => net req;
     sent := []; issued := []; logged := [] |}.

Definition answering (st : Z) (line body : string) : World :=
  world (fun _ => inr (response st line body)).

Definition unreachable : World :=
  world (fun _ => inl (errorString "dial tcp: connect: connection refused")).

(** A redirect to [loc], and a world whose network answers the first HTTP
    request of a call with a 307 to another path and the next one with the
    completion. *)
Definition moved (st : Z) (line loc : string) : http.Response :=
  {| http.Status := line; http.StatusCode := st;
     http.RespHeader := {["Location" := [loc]]};
     http.RespBody := {| http.data := EmptyString; http.failure := None |} |}.

Definition elsewhere : string :=
  "https://integrate.api.nvidia.com/v2/chat/completions".

Definition redirecting : World :=
  {| environ := {["NVIDIA_API_KEY" := "nvapi-0"]};
     exchange := fun _ n =>
                   match n with
                   | O => inr (moved 307 "307 Temporary Redirect" elsewhere)
                   | _ => inr (response 200 "200 OK" body42)
                   end;
     sent := []; issued := []; logged := [] |}.

(** Further samples, for the relay and for the page. *)

Definition broken_response : http.Response :=
  {| http.Status := "404 Not Found"; http.StatusCode := 404;
     http.RespHeader := ∅;
     http.RespBody := {| http.data := "par";
                         http.failure := Some (errorString "unexpected EOF") |} |}.

Definition body_two_choices : string :=
  "{" ++ quoted "id" ++ ":7," ++ quoted "choices" ++ ":[{" ++ quoted "message"
  ++ ":{" ++ quoted "content" ++ ":" ++ quoted "42" ++ "}},{"
  ++ quoted "message" ++ ":{" ++ quoted "content" ++ ":" ++ quoted "43"
  ++ "}}]}".

Definition world_with_key (key : string)
    (net : http.Request -> error + http.Response) : World :=
  {| environ := {["NVIDIA_API_KEY" := key]};
     exchange := fun req _ => net req;
     sent := []; issued := []; logged := [] |}.

Definition typed (s : string) : App.State :=
  {| App.messages := [App.userMessage (js.lit "earlier");
                      App.botMessage (js.text "reply")];
     App.input := js.lit s; App.isLoading := false |}.

Definition server (o : App.settled) : App.Browser :=
  {| App.post := fun _ _ => o; App.posted := []; App.console := [] |}.

(** An axios response whose body parsed to an object with one string
    field. *)
Definition carrying (field value : string) : js.value :=
  js.Object {["data" := js.Object {[field := js.text value]}]}.

(** * Lemmas *)

(** ** The decoder on sample texts *)

Example Unmarshal_body42 :
  exists result, json.Unmarshal body42 = inr result /\ has_content result "42".
Proof.
  eexists. split; [vm_compute; reflexivity|].
  eexists _, _, _. repeat split; vm_compute; reflexivity.
Qed.

Example Unmarshal_null : json.Unmarshal "null" = inr ∅.
Proof. vm_compute. reflexivity. Qed.

Example Unmarshal_array :
  json.Unmarshal "[]" = inl (UnmarshalTypeError "array" json.mapType).
Proof. vm_compute. reflexivity. Qed.

Example Unmarshal_truncated :
  json.Unmarshal "{" = inl (SyntaxError "unexpected end of JSON input").
Proof. vm_compute. reflexivity. Qed.

Example Unmarshal_trailing :
  json.Unmarshal "{} x"
  = inl (SyntaxError "invalid character 'x' after top-level value").
Proof. vm_compute. reflexivity. Qed.

Example Unmarshal_last_key_wins :
  json.Unmarshal ("{" ++ quoted "a" ++ ":1," ++ quoted "a" ++ ":[true,null]}")
  = inr {["a" := VSlice [VBool true; VNil]]}.
Proof. vm_compute. reflexivity. Qed.

Example Unmarshal_out_of_range :
  json.Unmarshal ("{" ++ quoted "n" ++ ":1e999}")
  = inl (UnmarshalTypeError "number 1e999" "float64").
Proof. vm_compute. reflexivity. Qed.

Example Unmarshal_escapes :
  json.Unmarshal ("{" ++ quoted "q" ++ ":" ++ quoted "a\né" ++ "}")
  = inr {["q" := VString ("a" ++ nl ++ "é")]}.
Proof. vm_compute. reflexivity. Qed.

(** ** The decoder: what the top-level value can be *)

Lemma top_decoded_same s s' :
  json.top s' = json.top s -> top_decoded s -> top_decoded s'.
Proof. intros E H v. rewrite E. apply H. Qed.

Lemma top_decoded_store v s :
  decoder_value v -> top_decoded s -> top_decoded (json.store v s).
Proof.
  intros Hv H. unfold json.store.
  destruct (json.parseState s) as [|f fs].
  - intros v' [= <-]. exact Hv.
  - exact H.
Qed.

Lemma top_decoded_pop s : top_decoded s -> top_decoded (json.popParseState s).
Proof.
  intros H. unfold json.popParseState.
  destruct (json.parseState s) as [|f fs]; [exact H|].
  apply top_decoded_store; [destruct (json.phase f); exact I|exact H].
Qed.

Lemma top_decoded_push s c p :
  top_decoded s -> top_decoded (json.pushParseState s c p).
Proof.
  intros H. unfold json.pushParseState. cbv zeta.
  destruct (_ <=? _); exact H.
Qed.

Lemma top_decoded_set_phase p s :
  top_decoded s -> top_decoded (json.set_phase p s).
Proof.
  intros H. unfold json.set_phase. destruct (json.parseState s); exact H.
Qed.

Lemma top_decoded_endValue s c :
  top_decoded s -> top_decoded (json.stateEndValue_ s c).
Proof.
  intros H. unfold json.stateEndValue_, json.stateEndTop_, json.set_phase.
  destruct (json.parseState s) as [|f fs]; [destruct (json.isSpace c); exact H|].
  destruct (json.isSpace c); [exact H|].
  destruct (json.phase f);
    repeat match goal with |- context [if ?b then _ else _] => destruct b end;
    try exact H.
  all: apply top_decoded_pop, H.
Qed.

Lemma top_decoded_end_number s :
  top_decoded s -> top_decoded (json.end_number s).
Proof.
  intros H. unfold json.end_number. apply top_decoded_store; [exact I|].
  destruct (json.out_of_range _); exact H.
Qed.

(** One step of the scanner keeps the invariant: a step either leaves the
    top-level value alone or stores a string, a number, a literal or a
    finished container. *)
Lemma top_decoded_scan_byte s c :
  top_decoded s -> top_decoded (json.scan_byte s c).
Proof.
  intros H. unfold json.scan_byte.
  destruct (json.step s);
    cbv beta delta [json.stateBeginValueOrEmpty_ json.stateBeginValue_
      json.stateBeginStringOrEmpty_ json.stateBeginString_ json.stateEndTop_
      json.stateInString_ json.stateInStringEsc_ json.stateInStringEscU_
      json.stateNeg_ json.state1_ json.state0_ json.stateDot_ json.stateDot0_
      json.stateE_ json.stateESign_ json.stateE0_ json.stateLit_
      json.end_string json.end_literal json.phasePanic];
    repeat match goal with
           | |- context [if ?b then _ else _] => destruct b
           | |- context [match json.unquote ?l with _ => _ end] =>
               destruct (json.unquote l)
           end;
    first [ exact H
          | apply top_decoded_push; exact H
          | apply top_decoded_endValue, top_decoded_set_phase, H
          | apply top_decoded_endValue, top_decoded_end_number, H
          | apply top_decoded_endValue; exact H
          | apply top_decoded_store; [exact I|exact H] ].
Qed.

Lemma top_decoded_scan data : forall s,
  top_decoded s -> top_decoded (json.scan s data).
Proof.
  induction data as [|c data IH]; intros s H; [exact H|].
  apply IH, top_decoded_scan_byte, H.
Qed.

Lemma Valid_decoder_value data v : json.Valid data v -> decoder_value v.
Proof.
  intros (s & Hc & Ht). unfold json.checkValid, json.eof in Hc.
  assert (H0 : top_decoded (json.scan json.reset data)).
  { apply top_decoded_scan. intros v' [=]. }
  destruct (json.err _); [discriminate|].
  destruct (json.endTop (json.scan json.reset data)).
  - injection Hc as <-. exact (H0 v Ht).
  - destruct (json.endTop (json.scan_byte _ _)) eqn:E.
    + injection Hc as <-. exact (top_decoded_scan_byte _ _ H0 v Ht).
    + destruct (json.err _); discriminate.
Qed.

(** A valid text is an object, [null], or one of the four kinds that
    [Unmarshal] refuses to store in a map. *)
Lemma Valid_top_cases data v :
  json.Valid data v ->
  (exists m, v = VMap m) \/ v = VNil \/ (exists kind, rejected_as v = Some kind).
Proof.
  intros J. pose proof (Valid_decoder_value data v J) as D.
  destruct v; cbn in D; try contradiction; eauto.
Qed.

Lemma Unmarshal_rejected data v kind :
  json.Valid data v ->
  rejected_as v = Some kind ->
  json.Unmarshal data = inl (UnmarshalTypeError kind json.mapType).
Proof.
  intros (s & Hc & Ht) K. unfold json.Unmarshal. rewrite Hc, Ht.
  destruct v; try discriminate; injection K as <-; reflexivity.
Qed.

Lemma Unmarshal_of_null data :
  json.Valid data VNil -> json.Unmarshal data = inr ∅.
Proof.
  intros (s & Hc & Ht). unfold json.Unmarshal. rewrite Hc, Ht. reflexivity.
Qed.

Lemma Unmarshal_invalid data e :
  json.checkValid data = inl e -> json.Unmarshal data = inl e.
Proof. intros H. unfold json.Unmarshal. rewrite H. reflexivity. Qed.

(** ** The shapes the extractor refuses *)

Lemma misshaped_no_content result :
  misshaped result -> forall a, ~ has_content result a.
Proof.
  intros M a (fc & rest & msg & H1 & H2 & H3).
  destruct M as [N|E|v r E N|fc' r E N|fc' r msg' E E' N].
  - exact (N _ H1).
  - rewrite H1 in E. discriminate.
  - rewrite H1 in E. injection E as <- <-. eapply N. reflexivity.
  - rewrite H1 in E. injection E as <- <-. exact (N _ H2).
  - rewrite H1 in E. injection E as <- <-. rewrite H2 in E'.
    injection E' as <-. exact (N _ H3).
Qed.

Lemma no_content_misshaped result :
  (forall a, ~ has_content result a) -> misshaped result.
Proof.
  intros Hno.
  destruct (result !! "choices") as [[| | | | |choices| |]|] eqn:E1;
    try (apply choices_not_array; intros ?; rewrite E1; discriminate).
  destruct choices as [|v rest]; [by apply choices_empty|].
  destruct v as [| | | | | |fc|];
    try (eapply choice_not_object; [exact E1|discriminate]).
  destruct (fc !! "message") as [[| | | | | |msg|]|] eqn:E2;
    try (eapply message_not_object; [exact E1|intros ?; rewrite E2; discriminate]).
  destruct (msg !! "content") as [[| | | |a| | |]|] eqn:E3;
    try (eapply content_not_string;
         [exact E1|exact E2|intros ?; rewrite E3; discriminate]).
  exfalso. apply (Hno a). exists fc, rest, msg. auto.
Qed.

Lemma empty_misshaped : misshaped ∅.
Proof.
  apply choices_not_array. intros l. rewrite lookup_empty. discriminate.
Qed.

(** ** The texts [Sprintf] builds *)

Lemma append_empty_r (s : string) : s ++ EmptyString = s.
Proof.
  induction s as [|c s IH]; [reflexivity|].
  change (String c (s ++ EmptyString) = String c s). by rewrite IH.
Qed.

Lemma Sprintf_creating e :
  Sprintf "Error creating request: %v" [OError e]
  = "Error creating request: " ++ Error e.
Proof. cbn. by rewrite append_empty_r. Qed.

Lemma Sprintf_sending e :
  Sprintf "Error sending request: %v" [OError e]
  = "Error sending request: " ++ Error e.
Proof. cbn. by rewrite append_empty_r. Qed.

Lemma Sprintf_reading e :
  Sprintf "Error reading response body: %v" [OError e]
  = "Error reading response body: " ++ Error e.
Proof. cbn. by rewrite append_empty_r. Qed.

Lemma Sprintf_parsing e :
  Sprintf "Error parsing JSON response: %v" [OError e]
  = "Error parsing JSON response: " ++ Error e.
Proof. cbn. by rewrite append_empty_r. Qed.

Lemma Sprintf_non200 st b :
  Sprintf ("API returned non-200 status: %s" ++ nl ++ "Body: %s")
    [OString st; OString b]
  = "API returned non-200 status: " ++ st ++ nl ++ "Body: " ++ b.
Proof.
  set (format := _ ++ nl ++ _). vm_compute in format. subst format.
  cbn. by rewrite append_empty_r.
Qed.

(** ** The client *)

Lemma follow_first allowed net body n req :
  exists rest,
    snd (http.follow allowed net body n req) = req :: rest
    /\ (length rest <= allowed)%nat.
Proof.
  revert n req. induction allowed as [|allowed IH]; intros n req; cbn [http.follow].
  - destruct (net n) as [e|resp]; [exists []; split; [reflexivity|cbn; lia]|].
    destruct (http.redirectBehavior _ resp) as [[m should] incl].
    destruct (negb should); [exists []; split; [reflexivity|cbn; lia]|].
    destruct (String.eqb _ _); exists []; split; first [reflexivity|cbn; lia].
  - destruct (net n) as [e|resp]; [exists []; split; [reflexivity|cbn; lia]|].
    destruct (http.redirectBehavior _ resp) as [[m should] incl].
    destruct (negb should); [exists []; split; [reflexivity|cbn; lia]|].
    destruct (String.eqb _ _); [exists []; split; [reflexivity|cbn; lia]|].
    match goal with
    | |- context [http.follow allowed net body (S n) ?h] =>
        destruct (IH (S n) h) as (rest & E & L);
        destruct (http.follow allowed net body (S n) h) as [r l]
    end.
    cbn [snd] in E |- *. subst l. eexists. split; [reflexivity|cbn; lia].
Qed.

Lemma follow_failed allowed net body n req e :
  net n = inl e -> http.follow allowed net body n req = (inl e, [req]).
Proof. intros H. destruct allowed; cbn [http.follow]; by rewrite H. Qed.

Lemma follow_final allowed net body n req resp :
  net n = inr resp ->
  redirects (http.HopMethod req) resp = false ->
  http.follow allowed net body n req = (inr resp, [req]).
Proof.
  unfold redirects. intros H R.
  destruct allowed; cbn [http.follow]; rewrite H;
    destruct (http.redirectBehavior _ resp) as [[m should] incl];
    cbn [fst snd] in R; destruct should; cbn [negb andb] in R |- *;
    try reflexivity;
    destruct (String.eqb _ _); first [reflexivity|discriminate].
Qed.

Lemma hops_first w req :
  exists rest, hops w req = firstHop req :: rest /\ (length rest <= 9)%nat.
Proof. apply follow_first. Qed.

Lemma Do_failed w req e :
  exchange w req 0%nat = inl e ->
  RoundTrip w req = inl e /\ hops w req = [firstHop req].
Proof.
  intros H. unfold RoundTrip, hops, http.Do. fold (firstHop req).
  by rewrite (follow_failed 9 _ (http.Body req) 0 (firstHop req) e H).
Qed.

Lemma Do_final w req resp :
  exchange w req 0%nat = inr resp ->
  redirects (http.Method req) resp = false ->
  RoundTrip w req = inr resp /\ hops w req = [firstHop req].
Proof.
  intros H R. unfold RoundTrip, hops, http.Do. fold (firstHop req).
  by rewrite (follow_final 9 _ (http.Body req) 0 (firstHop req) resp H R).
Qed.

(** ** How a run goes *)

Lemma NewRequest_apiURL (j : json.encoded) :
  http.NewRequest "POST" apiURL j
  = inr {| http.Method := "POST"; http.URL := apiURL; http.Header := ∅;
           http.Body := j |}.
Proof. reflexivity. Qed.

Lemma errorReply_code st msg c :
  fiber.code (errorReply st msg c) = fiber.StatusCode st.
Proof. reflexivity. Qed.

Lemma errorReply_body st msg c :
  fiber.body (errorReply st msg c)
  = if fiber.mustSkipBody st then ∅ else {["error" := VString msg]}.
Proof. reflexivity. Qed.

Lemma errorReply_sent st msg c :
  fiber.mustSkipBody st = false ->
  st <> 0 ->
  errorReply st msg c
  = {| fiber.code := st; fiber.body := {["error" := VString msg]} |}.
Proof.
  intros H NZ. unfold errorReply, fiber.JSON, fiber.StatusCode.
  cbn [fiber.Status fiber.status]. rewrite H.
  by destruct (Z.eqb_spec st 0).
Qed.

Lemma mustSkipBody_code st :
  fiber.mustSkipBody (fiber.StatusCode st) = fiber.mustSkipBody st.
Proof.
  unfold fiber.StatusCode. by destruct (Z.eqb_spec st 0) as [->|].
Qed.

Lemma singleton_not_empty (k : string) (v : any) :
  ({[k := v]} : gmap string any) <> ∅.
Proof.
  intros H. apply (f_equal (fun m => m !! k)) in H.
  rewrite lookup_singleton_eq, lookup_empty in H. discriminate.
Qed.

(** The walk of [extractAnswer]: one goal for each of its returns, all
    handed to [tac]. *)
Ltac walk_extractAnswer tac :=
  unfold extractAnswer;
  repeat match goal with
         | |- context [match json.Unmarshal ?b with _ => _ end] =>
             destruct (json.Unmarshal b)
         | |- context [assert_slice ?v] => destruct (assert_slice v)
         | |- context [assert_map ?v] => destruct (assert_map v)
         | |- context [assert_string ?v] => destruct (assert_string v)
         | |- context [if ?b then _ else _] => destruct b
         end;
  tac.

Section Extract.

Context (c : fiber.Ctx) (body : string) (w : World).

(** The reply of [extractAnswer] does not depend on the world, and the
    world keeps its list of requests. *)
Lemma extractAnswer_reply w' :
  fst (extractAnswer c body w) = fst (extractAnswer c body w').
Proof. walk_extractAnswer ltac:(reflexivity). Qed.

Lemma extractAnswer_sent : sent (snd (extractAnswer c body w)) = sent w.
Proof. walk_extractAnswer ltac:(reflexivity). Qed.

Lemma extractAnswer_issued : issued (snd (extractAnswer c body w)) = issued w.
Proof. walk_extractAnswer ltac:(reflexivity). Qed.

Lemma extractAnswer_parse_error e :
  json.Unmarshal body = inl e ->
  fst (extractAnswer c body w)
  = errorReply http.StatusInternalServerError
      ("Error parsing JSON response: " ++ Error e) c.
Proof.
  intros H. unfold extractAnswer. rewrite H, Sprintf_parsing. reflexivity.
Qed.

Lemma extractAnswer_content result a :
  json.Unmarshal body = inr result ->
  has_content result a ->
  extractAnswer c body w = (fiber.JSON {["answer" := VString a]} c, w).
Proof.
  intros H (fc & rest & msg & H1 & H2 & H3).
  unfold extractAnswer. rewrite H, H1.
  cbn [assert_slice negb orb length Nat.eqb].
  cbn [lookup list_lookup assert_map negb]. rewrite H2. cbn [assert_map negb].
  rewrite H3. reflexivity.
Qed.

Lemma extractAnswer_misshaped result :
  json.Unmarshal body = inr result ->
  misshaped result ->
  extractAnswer c body w = (unexpectedStructure c, w).
Proof.
  intros H Mis. pose proof (misshaped_no_content result Mis) as Hno.
  unfold extractAnswer. rewrite H.
  destruct (result !! "choices") as [[| | | | |choices| |]|] eqn:E1;
    try reflexivity.
  cbn [assert_slice negb orb].
  destruct choices as [|v rest]; [reflexivity|].
  cbn [length Nat.eqb lookup list_lookup].
  destruct v as [| | | | | |fc|]; try reflexivity.
  cbn [assert_map negb].
  destruct (fc !! "message") as [[| | | | | |msg|]|] eqn:E2; try reflexivity.
  cbn [assert_map negb].
  destruct (msg !! "content") as [[| | | |a| | |]|] eqn:E3; try reflexivity.
  exfalso. apply (Hno a). exists fc, rest, msg. auto.
Qed.

End Extract.

Section Ask.

Context (c : fiber.Ctx) (k question : string) (w : World).

Lemma askUpstream_sent :
  sent (snd (askUpstream c k question w))
  = (sent w ++ [upstreamRequest k question])%list.
Proof.
  unfold askUpstream. rewrite NewRequest_apiURL.
  fold (upstreamRequest k question).
  unfold mbind, M_bind, client_Do.
  destruct (log _ w) as [[] w1] eqn:E1.
  assert (Hs : sent w1 = sent w) by (injection E1 as <-; reflexivity).
  rewrite <- Hs. clear E1 Hs.
  destruct (RoundTrip w1 _) as [e|resp]; [reflexivity|].
  destruct (http.ReadAll _) as [e|body]; [reflexivity|].
  cbn [log].
  destruct (negb _); [reflexivity|].
  apply extractAnswer_sent.
Qed.

Lemma askUpstream_issued :
  issued (snd (askUpstream c k question w))
  = (issued w ++ hops w (upstreamRequest k question))%list.
Proof.
  unfold askUpstream. rewrite NewRequest_apiURL.
  fold (upstreamRequest k question).
  unfold mbind, M_bind, client_Do.
  destruct (log _ w) as [[] w1] eqn:E1.
  assert (Hs : issued w1 = issued w) by (injection E1 as <-; reflexivity).
  assert (Hh : hops w1 = hops w) by (injection E1 as <-; reflexivity).
  rewrite <- Hs, <- Hh. clear E1 Hs Hh.
  destruct (RoundTrip w1 _) as [e|resp]; [reflexivity|].
  destruct (http.ReadAll _) as [e|body]; [reflexivity|].
  cbn [log].
  destruct (negb _); [reflexivity|].
  apply extractAnswer_issued.
Qed.

(** The reply of [askUpstream], by what the network does. *)
Lemma askUpstream_reply :
  fst (askUpstream c k question w)
  = match RoundTrip w (upstreamRequest k question) with
    | inl e =>
        errorReply http.StatusInternalServerError
          ("Error sending request: " ++ Error e) c
    | inr resp =>
        match http.ReadAll (http.RespBody resp) with
        | inl e =>
            errorReply http.StatusInternalServerError
              ("Error reading response body: " ++ Error e) c
        | inr body =>
            if http.StatusCode resp =? http.StatusOK
            then fst (extractAnswer c body w)
            else errorReply (http.StatusCode resp)
                   ("API returned non-200 status: " ++ http.Status resp
                    ++ nl ++ "Body: " ++ body) c
        end
    end.
Proof.
  unfold askUpstream. rewrite NewRequest_apiURL.
  fold (upstreamRequest k question).
  unfold mbind, M_bind, client_Do.
  destruct (log _ w) as [[] w1] eqn:E1.
  assert (Hr : RoundTrip w1 = RoundTrip w) by (injection E1 as <-; reflexivity).
  rewrite <- Hr. clear E1 Hr.
  destruct (RoundTrip w1 _) as [e|resp].
  { rewrite Sprintf_sending. reflexivity. }
  destruct (http.ReadAll _) as [e|body].
  { rewrite Sprintf_reading. reflexivity. }
  cbn [log].
  destruct (http.StatusCode resp =? http.StatusOK); cbn [negb].
  - apply extractAnswer_reply.
  - rewrite Sprintf_non200. reflexivity.
Qed.

(** [askUpstream] looks at its context only for the status of the response
    under construction. *)
Lemma askUpstream_ext c' :
  fiber.status c = fiber.status c' ->
  askUpstream c k question w = askUpstream c' k question w.
Proof.
  intros Hs. unfold askUpstream. rewrite NewRequest_apiURL.
  unfold mbind, M_bind, client_Do.
  destruct (log _ w) as [[] w1].
  destruct (RoundTrip w1 _) as [e|resp]; [reflexivity|].
  destruct (http.ReadAll _) as [e|body]; [reflexivity|].
  cbn [log].
  destruct (negb _); [reflexivity|].
  unfold extractAnswer, unexpectedStructure, errorReply, fiber.JSON.
  rewrite Hs. reflexivity.
Qed.

End Ask.

Section Run.

Context (c : fiber.Ctx) (w : World).

Lemma chatHandler_undecodable e :
  fiber.BodyParser c = inl e ->
  chatHandler c w
  = (errorReply http.StatusBadRequest "Invalid request body" c,
     logging (Printf ("Error parsing request body: %v" ++ nl) [OError e])
       (logging (Println "Received request for chat") w)).
Proof.
  intros H. unfold chatHandler. rewrite H. reflexivity.
Qed.

Lemma chatHandler_no_question m :
  fiber.BodyParser c = inr m ->
  snd (assert_string (m !! "question")) = false
  \/ fst (assert_string (m !! "question")) = EmptyString ->
  chatHandler c w
  = (errorReply http.StatusBadRequest
       "Invalid question format or empty question" c,
     logging (Println "Received request for chat") w).
Proof.
  intros H Hq. unfold chatHandler. rewrite H.
  destruct (assert_string (m !! "question")) as [question ok].
  cbn [fst snd] in Hq.
  destruct Hq as [-> | ->]; [reflexivity|].
  destruct ok; reflexivity.
Qed.

(** Every request stops at decoding, stops at the question, or is
    validated. *)
Lemma validation_cases :
  (exists e, fiber.BodyParser c = inl e)
  \/ (exists m, fiber.BodyParser c = inr m
        /\ (snd (assert_string (m !! "question")) = false
            \/ fst (assert_string (m !! "question")) = EmptyString))
  \/ (exists question, validated c question).
Proof.
  destruct (fiber.BodyParser c) as [e|m] eqn:E; [left; eauto|right].
  destruct (m !! "question") as [[| | | |question| | |]|] eqn:Eq;
    try (left; exists m; split; [reflexivity|rewrite Eq; left; reflexivity]).
  destruct (String.eqb_spec question EmptyString) as [->|Hne].
  - left. exists m. split; [reflexivity|]. rewrite Eq. right. reflexivity.
  - right. exists question, m. auto.
Qed.

Section Validated.

Context (question : string) (V : validated c question).

Lemma chatHandler_validated :
  chatHandler c w
  = askUpstream c (apiKeyOf w) question
      (logging (Println "Received request for chat") w).
Proof.
  destruct V as (m & H & Hq & Hne). unfold chatHandler. rewrite H, Hq.
  cbn [assert_string negb orb].
  destruct (String.eqb_spec question EmptyString) as [->|_]; [done|].
  reflexivity.
Qed.

Lemma chatHandler_sent :
  sent (snd (chatHandler c w))
  = (sent w ++ [upstreamRequest (apiKeyOf w) question])%list.
Proof.
  rewrite chatHandler_validated, askUpstream_sent. reflexivity.
Qed.

Lemma chatHandler_issued :
  issued (snd (chatHandler c w))
  = (issued w ++ hops w (upstreamRequest (apiKeyOf w) question))%list.
Proof.
  rewrite chatHandler_validated, askUpstream_issued. reflexivity.
Qed.

Lemma chatHandler_unreachable e :
  RoundTrip w (upstreamRequest (apiKeyOf w) question) = inl e ->
  fst (chatHandler c w)
  = errorReply http.StatusInternalServerError
      ("Error sending request: " ++ Error e) c.
Proof.
  intros Hrt. rewrite chatHandler_validated, askUpstream_reply.
  change (RoundTrip (logging _ w)) with (RoundTrip w). rewrite Hrt.
  reflexivity.
Qed.

(** What the caller gets once the network has answered. *)
Lemma chatHandler_answered resp body :
  responds w question resp body ->
  fst (chatHandler c w)
  = if http.StatusCode resp =? http.StatusOK
    then fst (extractAnswer c body w)
    else errorReply (http.StatusCode resp)
           ("API returned non-200 status: " ++ http.Status resp
            ++ nl ++ "Body: " ++ body) c.
Proof.
  intros [Hrt Hrd]. rewrite chatHandler_validated, askUpstream_reply.
  change (RoundTrip (logging _ w)) with (RoundTrip w). rewrite Hrt, Hrd.
  destruct (_ =? _); [apply extractAnswer_reply|reflexivity].
Qed.

Lemma chatHandler_answered_200 resp body :
  responds w question resp body ->
  http.StatusCode resp = 200 ->
  fst (chatHandler c w) = fst (extractAnswer c body w).
Proof.
  intros R S200. rewrite (chatHandler_answered resp body R), S200.
  reflexivity.
Qed.

End Validated.

(** The replies of a run: the answer with the status of the context, an
    error with one of the handler's own statuses, or an upstream status
    passed on. *)
Lemma chatHandler_reply_kinds :
  (exists a, fst (chatHandler c w) = fiber.JSON {["answer" := VString a]} c)
  \/ (exists st msg, fst (chatHandler c w) = errorReply st msg c
                     /\ (st = 400 \/ st = 500))
  \/ (exists question resp body,
        validated c question /\ responds w question resp body
        /\ http.StatusCode resp <> 200
        /\ fst (chatHandler c w)
           = errorReply (http.StatusCode resp)
               ("API returned non-200 status: " ++ http.Status resp
                ++ nl ++ "Body: " ++ body) c).
Proof.
  destruct validation_cases as [[e D] | [(m & D & Q) | [question V]]].
  - rewrite (chatHandler_undecodable e D). right. left. eexists _, _. eauto.
  - rewrite (chatHandler_no_question m D Q). right. left. eexists _, _. eauto.
  - rewrite (chatHandler_validated question V), askUpstream_reply.
    change (RoundTrip (logging _ w)) with (RoundTrip w).
    destruct (RoundTrip _ _) as [e|resp] eqn:Hrt;
      [right; left; eexists _, _; eauto|].
    destruct (http.ReadAll _) as [e|body] eqn:Hrd;
      [right; left; eexists _, _; eauto|].
    destruct (Z.eqb_spec (http.StatusCode resp) http.StatusOK) as [E|NE].
    + unfold extractAnswer.
      repeat match goal with
             | |- context [match json.Unmarshal ?b with _ => _ end] =>
                 destruct (json.Unmarshal b)
             | |- context [assert_slice ?v] => destruct (assert_slice v)
             | |- context [assert_map ?v] => destruct (assert_map v)
             | |- context [assert_string ?v] => destruct (assert_string v)
             | |- context [if ?b then _ else _] => destruct b
             end;
        first [ left; eexists; reflexivity
              | right; left; eexists _, _; split; [reflexivity|eauto] ].
    + right. right. exists question, resp, body.
      split; [exact V|]. split; [by split|]. split; [exact NE|reflexivity].
Qed.

End Run.

(** ** Facts about the samples *)

Lemma ask_hi_validated : validated (ask "hi") "hi".
Proof.
  eexists. split; [vm_compute; reflexivity|].
  split; [vm_compute; reflexivity|discriminate].
Qed.

Lemma answering_RoundTrip st line body req :
  RoundTrip (answering st line body) req = inr (response st line body).
Proof.
  apply Do_final; [reflexivity|].
  unfold redirects. cbn [response http.RespHeader].
  apply andb_false_r.
Qed.

Lemma answering_responds st line body question :
  responds (answering st line body) question (response st line body) body.
Proof. split; [apply answering_RoundTrip|reflexivity]. Qed.

(** A whole run: the reply, what was handed to the client, and the log. *)
Example run_unreachable :
  chatHandler (ask "hi") unreachable
  = ({| fiber.code := 500;
        fiber.body :=
          {["error" := VString "Error sending request: dial tcp: connect: connection refused"]} |},
     {| environ := environ unreachable;
        exchange := exchange unreachable;
        sent := [upstreamRequest "nvapi-0" "hi"];
        issued := [firstHop (upstreamRequest "nvapi-0" "hi")];
        logged :=
          [ Println "Received request for chat";
            PrintfJSON ("Sending request to NVIDIA NIM API: %s" ++ nl)
              (json.Marshal (VMap (requestPayload "hi")));
            Printf ("Error sending request: %v" ++ nl)
              [OError (errorString "dial tcp: connect: connection refused")] ] |}).
Proof. vm_compute. reflexivity. Qed.

(** * The claims *)

(** ** C1: the answer is the content, unchanged *)

(** C1, as amended. When the upstream answers with status 200 and a body
    that decodes to an object whose [choices[0].message.content] is the
    string [a], the caller gets status 200 and the object with the single
    field [answer] equal to [a], byte for byte. In particular the body
    [{"choices":[{"message":{"content":"42"}}]}] gives [{"answer":"42"}].
    With any other status there is no [answer]: an answer in the reply is
    always that string, from a response with status 200. *)
Theorem answer_is_content_at_200 :
  (forall reqbody d w question resp body result a,
      let c := fiber.AcquireCtx reqbody d in
      validated c question ->
      responds w question resp body ->
      http.StatusCode resp = 200 ->
      json.Unmarshal body = inr result ->
      has_content result a ->
      fst (chatHandler c w)
      = {| fiber.code := 200; fiber.body := {["answer" := VString a]} |})
  /\ (forall reqbody d w question resp,
      let c := fiber.AcquireCtx reqbody d in
      validated c question ->
      responds w question resp body42 ->
      http.StatusCode resp = 200 ->
      fst (chatHandler c w)
      = {| fiber.code := 200; fiber.body := {["answer" := VString "42"]} |})
  /\ (forall c w question resp body result a x,
      validated c question ->
      responds w question resp body ->
      json.Unmarshal body = inr result ->
      has_content result a ->
      fiber.body (fst (chatHandler c w)) !! "answer" = Some x ->
      x = VString a /\ http.StatusCode resp = 200).
Proof.
  assert (G : forall reqbody d w question resp body result a,
      let c := fiber.AcquireCtx reqbody d in
      validated c question -> responds w question resp body ->
      http.StatusCode resp = 200 ->
      json.Unmarshal body = inr result -> has_content result a ->
      fst (chatHandler c w)
      = {| fiber.code := 200; fiber.body := {["answer" := VString a]} |}).
  { intros reqbody d w question resp body result a c V R S200 U C.
    rewrite (chatHandler_answered_200 c w question V resp body R S200).
    rewrite (extractAnswer_content c body w result a U C). reflexivity. }
  split; [exact G|split].
  - intros reqbody d w question resp c V R S200.
    destruct Unmarshal_body42 as (result & U & C).
    exact (G reqbody d w question resp body42 result "42" V R S200 U C).
  - intros c w question resp body result a x V R U C Hx.
    rewrite (chatHandler_answered c w question V resp body R) in Hx.
    destruct (Z.eqb_spec (http.StatusCode resp) http.StatusOK) as [E|NE].
    + rewrite (extractAnswer_content c body w result a U C) in Hx.
      cbn [fst fiber.JSON fiber.body] in Hx.
      destruct (fiber.mustSkipBody _); [by rewrite lookup_empty in Hx|].
      rewrite lookup_singleton_eq in Hx. injection Hx as <-. auto.
    + rewrite errorReply_body in Hx.
      destruct (fiber.mustSkipBody _); [by rewrite lookup_empty in Hx|].
      rewrite lookup_singleton_ne in Hx; discriminate.
Qed.

Lemma answer_is_content_at_200_witness :
  fst (chatHandler (ask "hi") (answering 200 "200 OK" body42))
  = {| fiber.code := 200; fiber.body := {["answer" := VString "42"]} |}.
Proof.
  apply (proj1 (proj2 answer_is_content_at_200)
           (question_body "hi") fiber.JSONDecoder
           (answering 200 "200 OK" body42) "hi" (response 200 "200 OK" body42)).
  - exact ask_hi_validated.
  - apply answering_responds.
  - reflexivity.
Defined.

(** C1 as stated fails for a 2xx status other than 200: with status 201 and
    the same well-shaped body the caller gets no answer at all. *)
Lemma created_status_gets_no_answer :
  let c := ask "hi" in
  let w := answering 201 "201 Created" body42 in
  validated c "hi"
  /\ responds w "hi" (response 201 "201 Created" body42) body42
  /\ is2xx 201 = true
  /\ (exists result, json.Unmarshal body42 = inr result
                     /\ has_content result "42")
  /\ fiber.code (fst (chatHandler c w)) = 201
  /\ fiber.body (fst (chatHandler c w)) !! "answer" = None
  /\ fst (chatHandler c w)
     <> {| fiber.code := 200; fiber.body := {["answer" := VString "42"]} |}.
Proof.
  intros c w. split; [exact ask_hi_validated|].
  split; [apply answering_responds|].
  split; [reflexivity|].
  split; [exact Unmarshal_body42|].
  split; [vm_compute; reflexivity|].
  split; [vm_compute; reflexivity|].
  intros H. apply (f_equal fiber.code) in H. vm_compute in H. discriminate.
Qed.

(** ** C2: every shape violation is the same error *)

(** C2, as amended. When the upstream answers with status 200 and a body
    that decodes to an object which lacks a non-empty [choices] array or
    lacks [choices[0].message.content] as a string, whatever the level at
    which it does, the caller gets status 500 and the one message
    "Unexpected response structure from API". *)
Theorem misshaped_body_is_one_error :
  forall c w question resp body result,
    validated c question ->
    responds w question resp body ->
    http.StatusCode resp = 200 ->
    json.Unmarshal body = inr result ->
    misshaped result ->
    fst (chatHandler c w)
    = {| fiber.code := 500;
         fiber.body :=
           {["error" := VString "Unexpected response structure from API"]} |}.
Proof.
  intros c w question resp body result V R S200 U Mis.
  rewrite (chatHandler_answered_200 c w question V resp body R S200).
  rewrite (extractAnswer_misshaped c body w result U Mis).
  reflexivity.
Qed.

Lemma misshaped_body_is_one_error_witness :
  fst (chatHandler (ask "hi") (answering 200 "200 OK" "{}"))
  = {| fiber.code := 500;
       fiber.body :=
         {["error" := VString "Unexpected response structure from API"]} |}.
Proof.
  apply (misshaped_body_is_one_error (ask "hi") (answering 200 "200 OK" "{}")
           "hi" (response 200 "200 OK" "{}") "{}" ∅).
  - exact ask_hi_validated.
  - apply answering_responds.
  - reflexivity.
  - vm_compute. reflexivity.
  - exact empty_misshaped.
Defined.

(** C2 as stated fails for a 2xx status other than 200: with status 201 a
    body without [choices] is answered with status 201, not 500, and with
    the non-200 message. *)
Lemma created_status_misshaped_not_500 :
  let c := ask "hi" in
  let w := answering 201 "201 Created" "{}" in
  validated c "hi"
  /\ responds w "hi" (response 201 "201 Created" "{}") "{}"
  /\ is2xx 201 = true
  /\ json.Unmarshal "{}" = inr ∅
  /\ misshaped ∅
  /\ fiber.code (fst (chatHandler c w)) = 201
  /\ fiber.body (fst (chatHandler c w)) !! "error"
     = Some (VString ("API returned non-200 status: 201 Created" ++ nl
                      ++ "Body: {}")).
Proof.
  intros c w. split; [exact ask_hi_validated|].
  split; [apply answering_responds|].
  split; [reflexivity|].
  split; [vm_compute; reflexivity|].
  split; [exact empty_misshaped|].
  split; vm_compute; reflexivity.
Qed.

(** ** C3: a question that is missing, not a string, or empty *)

(** C3, as amended. When the request body decodes to an object in which
    [question] is absent, is not a string, or is the empty string, the
    caller gets status 400 with the message "Invalid question format or
    empty question" and nothing is sent upstream; so it is for the body
    whose [question] is the empty string. A question that is not empty
    passes, also when it is nothing but whitespace: its request goes
    upstream. *)
Theorem invalid_question_rejected :
  (forall c w m,
      fiber.BodyParser c = inr m ->
      m !! "question" = None
      \/ (exists v, m !! "question" = Some v /\ forall s, v <> VString s)
      \/ m !! "question" = Some (VString EmptyString) ->
      fst (chatHandler c w)
      = {| fiber.code := 400;
           fiber.body :=
             {["error" := VString "Invalid question format or empty question"]} |}
      /\ sent (snd (chatHandler c w)) = sent w)
  /\ (forall w,
      fst (chatHandler (ask EmptyString) w)
      = {| fiber.code := 400;
           fiber.body :=
             {["error" := VString "Invalid question format or empty question"]} |}
      /\ sent (snd (chatHandler (ask EmptyString) w)) = sent w)
  /\ (forall c w question,
      validated c question ->
      whitespace_only question = true ->
      sent (snd (chatHandler c w))
      = (sent w ++ [upstreamRequest (apiKeyOf w) question])%list).
Proof.
  assert (G : forall c w m,
      fiber.BodyParser c = inr m ->
      m !! "question" = None
      \/ (exists v, m !! "question" = Some v /\ forall s, v <> VString s)
      \/ m !! "question" = Some (VString EmptyString) ->
      fst (chatHandler c w)
      = {| fiber.code := 400;
           fiber.body :=
             {["error" := VString "Invalid question format or empty question"]} |}
      /\ sent (snd (chatHandler c w)) = sent w).
  { intros c w m D Q.
    rewrite (chatHandler_no_question c w m D); [split; reflexivity|].
    destruct Q as [-> | [(v & -> & Hv) | ->]].
    - left. reflexivity.
    - left. destruct v; try reflexivity. exfalso. eapply Hv. reflexivity.
    - right. reflexivity. }
  split; [exact G|split].
  - intros w.
    apply (G (ask EmptyString) w {["question" := VString EmptyString]}).
    + vm_compute. reflexivity.
    + right. right. vm_compute. reflexivity.
  - intros c w question V _. exact (chatHandler_sent c w question V).
Qed.

Lemma invalid_question_rejected_witness :
  fst (chatHandler
         (fiber.AcquireCtx ("{" ++ quoted "question" ++ ": 7}") fiber.JSONDecoder)
         (answering 200 "200 OK" body42))
  = {| fiber.code := 400;
       fiber.body :=
         {["error" := VString "Invalid question format or empty question"]} |}
  /\ sent (snd (chatHandler
                  (fiber.AcquireCtx ("{" ++ quoted "question" ++ ": 7}")
                     fiber.JSONDecoder)
                  (answering 200 "200 OK" body42)))
     = [].
Proof.
  apply (proj1 invalid_question_rejected
           (fiber.AcquireCtx ("{" ++ quoted "question" ++ ": 7}")
              fiber.JSONDecoder)
           (answering 200 "200 OK" body42)
           {["question" := VFloat64 "7"]}).
  - vm_compute. reflexivity.
  - right. left. exists (VFloat64 "7"). split; [vm_compute; reflexivity|].
    discriminate.
Defined.

(** C3 as stated fails for a whitespace-only question: the handler compares
    with the empty string only, so a single blank is forwarded and
    answered. *)
Lemma blank_question_is_forwarded :
  let c := ask " " in
  let w := answering 200 "200 OK" body42 in
  fiber.BodyParser c = inr {["question" := VString " "]}
  /\ whitespace_only " " = true
  /\ fst (chatHandler c w)
     = {| fiber.code := 200; fiber.body := {["answer" := VString "42"]} |}
  /\ sent (snd (chatHandler c w)) = [upstreamRequest "nvapi-0" " "].
Proof.
  intros c w. repeat split; vm_compute; reflexivity.
Qed.

(** ** C4: what becomes of the upstream status *)

(** C4, as amended. A response whose body can be read and whose status is
    not 200 is answered with that same status, and, when the status is one
    with which a body is sent, with an error text made of the upstream status
    line and the raw body; so is, in particular, every response with a
    status outside 2xx. A response with status 200, and only that, has its
    raw body handed to the extractor. Nothing is said here of the body of a
    reply with a status that carries none (1xx, 204, 304), nor of the status
    code 0, which no status line can carry. *)
Theorem status_other_than_200_passed_on :
  forall c w question resp body,
    validated c question ->
    responds w question resp body ->
    let st := http.StatusCode resp in
    let passed_on :=
      {| fiber.code := st;
         fiber.body :=
           {["error" := VString ("API returned non-200 status: "
                                 ++ http.Status resp ++ nl
                                 ++ "Body: " ++ body)]} |} in
    (st <> 200 -> st <> 0 ->
     fiber.code (fst (chatHandler c w)) = st
     /\ (fiber.mustSkipBody st = false -> fst (chatHandler c w) = passed_on))
    /\ (is2xx st = false -> st <> 0 ->
        fiber.code (fst (chatHandler c w)) = st
        /\ (fiber.mustSkipBody st = false ->
            fst (chatHandler c w) = passed_on))
    /\ (st = 200 -> fst (chatHandler c w) = fst (extractAnswer c body w)).
Proof.
  intros c w question resp body V R st passed_on.
  assert (G : st <> 200 -> st <> 0 ->
              fiber.code (fst (chatHandler c w)) = st
              /\ (fiber.mustSkipBody st = false ->
                  fst (chatHandler c w) = passed_on)).
  { intros Hne NZ. rewrite (chatHandler_answered c w question V resp body R).
    destruct (Z.eqb_spec (http.StatusCode resp) http.StatusOK);
      [contradiction|]. split.
    - rewrite errorReply_code. unfold fiber.StatusCode.
      by destruct (Z.eqb_spec (http.StatusCode resp) 0).
    - intros Sk. by apply errorReply_sent. }
  split; [exact G|split].
  - intros H. apply G. intros E. rewrite E in H. discriminate.
  - exact (chatHandler_answered_200 c w question V resp body R).
Qed.

Lemma status_other_than_200_passed_on_witness :
  fst (chatHandler (ask "hi") (answering 404 "404 Not Found" "no such model"))
  = {| fiber.code := 404;
       fiber.body :=
         {["error" := VString ("API returned non-200 status: 404 Not Found"
                               ++ nl ++ "Body: no such model")]} |}.
Proof.
  refine (proj2 (proj1 (status_other_than_200_passed_on (ask "hi")
                          (answering 404 "404 Not Found" "no such model") "hi"
                          (response 404 "404 Not Found" "no such model")
                          "no such model" ask_hi_validated
                          (answering_responds 404 "404 Not Found"
                             "no such model" "hi")) _ _) _).
  - discriminate.
  - discriminate.
  - reflexivity.
Defined.

(** C4 as stated fails for a 2xx status other than 200: with status 201
    the body is not handed to the extractor, which would have found the
    answer in it. *)
Lemma created_status_not_extracted :
  let c := ask "hi" in
  let w := answering 201 "201 Created" body42 in
  validated c "hi"
  /\ responds w "hi" (response 201 "201 Created" body42) body42
  /\ is2xx 201 = true
  /\ fst (extractAnswer c body42 w)
     = {| fiber.code := 200; fiber.body := {["answer" := VString "42"]} |}
  /\ fst (chatHandler c w) <> fst (extractAnswer c body42 w).
Proof.
  intros c w. split; [exact ask_hi_validated|].
  split; [apply answering_responds|].
  split; [reflexivity|].
  split; [vm_compute; reflexivity|].
  intros H. apply (f_equal fiber.code) in H. vm_compute in H. discriminate.
Qed.

(** ** C5: the payload sent upstream *)

(** C5. For a validated, non-empty question the one request handed to the
    client carries the encoding of a payload with exactly the keys [model],
    [messages], [temperature], [top_p] and [max_tokens]; [messages] holds two
    messages, the constant system message and then a user message whose
    content is the question itself; the other four values are the constants
    "meta/llama3-70b-instruct", 0.5, 1 and 1024, whatever the request. *)
Theorem payload_is_fixed_but_for_the_question :
  forall c w question,
    validated c question ->
    exists req payload,
      sent (snd (chatHandler c w)) = (sent w ++ [req])%list
      /\ http.Body req = json.Marshal (VMap payload)
      /\ payload !! "messages"
         = Some (VMapSlice
                   [ {["role" := "system"; "content" := systemPrompt]};
                     {["role" := "user"; "content" := question]} ])
      /\ payload !! "model" = Some (VString "meta/llama3-70b-instruct")
      /\ payload !! "temperature" = Some (VFloat64 "0.5")
      /\ payload !! "top_p" = Some (VInt 1)
      /\ payload !! "max_tokens" = Some (VInt 1024)
      /\ dom payload
         = ({["model"; "messages"; "temperature"; "top_p"; "max_tokens"]}
              : gset string).
Proof.
  intros c w question V.
  exists (upstreamRequest (apiKeyOf w) question), (requestPayload question).
  split; [exact (chatHandler_sent c w question V)|].
  split; [reflexivity|].
  repeat split; vm_compute; reflexivity.
Qed.

Lemma payload_is_fixed_but_for_the_question_witness :
  exists req payload,
    sent (snd (chatHandler (ask "hi") unreachable)) = [req]
    /\ http.Body req = json.Marshal (VMap payload)
    /\ payload !! "messages"
       = Some (VMapSlice
                 [ {["role" := "system"; "content" := systemPrompt]};
                   {["role" := "user"; "content" := "hi"]} ])
    /\ payload !! "model" = Some (VString "meta/llama3-70b-instruct")
    /\ payload !! "temperature" = Some (VFloat64 "0.5")
    /\ payload !! "top_p" = Some (VInt 1)
    /\ payload !! "max_tokens" = Some (VInt 1024)
    /\ dom payload
       = ({["model"; "messages"; "temperature"; "top_p"; "max_tokens"]}
            : gset string).
Proof.
  exact (payload_is_fixed_but_for_the_question (ask "hi") unreachable "hi"
           ask_hi_validated).
Defined.

(** ** C6: one of [answer] and [error], never both, never neither *)

(** C6. Every return of the handler hands [c.JSON] an object with the single
    field [answer] or the single field [error], but not every reply reaches
    the caller so: when the upstream answers 204 the handler passes that
    status on with its error object, and a response with status 204 is sent
    without a body. For the question "hi" and the upstream response
    "204 No Content" the caller gets status 204 and neither an [answer] nor
    an [error]. *)
Lemma no_content_status_has_neither_field :
  let c := ask "hi" in
  let w := answering 204 "204 No Content" EmptyString in
  validated c "hi"
  /\ responds w "hi" (response 204 "204 No Content" EmptyString) EmptyString
  /\ fst (chatHandler c w) = {| fiber.code := 204; fiber.body := ∅ |}
  /\ fiber.body (fst (chatHandler c w)) !! "answer" = None
  /\ fiber.body (fst (chatHandler c w)) !! "error" = None
  /\ ~ answer_only (fiber.body (fst (chatHandler c w)))
  /\ ~ error_only (fiber.body (fst (chatHandler c w))).
Proof.
  intros c w. split; [exact ask_hi_validated|].
  split; [apply answering_responds|].
  assert (E : fst (chatHandler c w) = {| fiber.code := 204; fiber.body := ∅ |})
    by (vm_compute; reflexivity).
  rewrite E. cbn [fiber.body].
  split; [reflexivity|]. split; [apply lookup_empty|].
  split; [apply lookup_empty|].
  split; intros [x Hx]; symmetry in Hx; exact (singleton_not_empty _ _ Hx).
Qed.

(** ** C7: one attempt *)

(** C7, as amended. A run of the handler calls the HTTP client at most once,
    and not at all unless the body validates; it calls it exactly once,
    with the request for the question, when the body validates. That one
    call issues the request and, since the client follows redirects, up to
    nine more after it: between one and ten HTTP requests, and one only
    unless the first is answered with a redirect. When the
    client fails to reach the upstream, the caller gets status 500 with an
    [error] field naming the failure, and when it is the first request that
    fails nothing more goes out: the handler never tries again. *)
Theorem at_most_one_attempt :
  forall c w,
    (sent (snd (chatHandler c w)) = sent w
     \/ exists req, sent (snd (chatHandler c w)) = (sent w ++ [req])%list)
    /\ ((forall question, ~ validated c question) ->
        sent (snd (chatHandler c w)) = sent w
        /\ issued (snd (chatHandler c w)) = issued w)
    /\ (forall question,
          validated c question ->
          sent (snd (chatHandler c w))
          = (sent w ++ [upstreamRequest (apiKeyOf w) question])%list
          /\ exists rest,
              issued (snd (chatHandler c w))
              = (issued w
                 ++ firstHop (upstreamRequest (apiKeyOf w) question) :: rest)%list
              /\ (length rest <= 9)%nat)
    /\ (forall question e,
          validated c question ->
          RoundTrip w (upstreamRequest (apiKeyOf w) question) = inl e ->
          fst (chatHandler c w)
          = {| fiber.code := 500;
               fiber.body :=
                 {["error" := VString ("Error sending request: " ++ Error e)]} |}
          /\ sent (snd (chatHandler c w))
             = (sent w ++ [upstreamRequest (apiKeyOf w) question])%list)
    /\ (forall question e,
          validated c question ->
          exchange w (upstreamRequest (apiKeyOf w) question) 0%nat = inl e ->
          fst (chatHandler c w)
          = {| fiber.code := 500;
               fiber.body :=
                 {["error" := VString ("Error sending request: " ++ Error e)]} |}
          /\ issued (snd (chatHandler c w))
             = (issued w
                ++ [firstHop (upstreamRequest (apiKeyOf w) question)])%list)
    /\ (forall question resp,
          validated c question ->
          exchange w (upstreamRequest (apiKeyOf w) question) 0%nat = inr resp ->
          redirects "POST" resp = false ->
          issued (snd (chatHandler c w))
          = (issued w
             ++ [firstHop (upstreamRequest (apiKeyOf w) question)])%list).
Proof.
  intros c w.
  assert (U : forall question e,
      validated c question ->
      RoundTrip w (upstreamRequest (apiKeyOf w) question) = inl e ->
      fst (chatHandler c w)
      = {| fiber.code := 500;
           fiber.body :=
             {["error" := VString ("Error sending request: " ++ Error e)]} |}).
  { intros question e V Hrt.
    rewrite (chatHandler_unreachable c w question V e Hrt). reflexivity. }
  split; [|split; [|split; [|split; [|split]]]].
  - destruct (validation_cases c) as [[e D] | [(m & D & Q) | [question V]]].
    + left. rewrite (chatHandler_undecodable c w e D). reflexivity.
    + left. rewrite (chatHandler_no_question c w m D Q). reflexivity.
    + right. eexists. exact (chatHandler_sent c w question V).
  - intros NV.
    destruct (validation_cases c) as [[e D] | [(m & D & Q) | [question V]]].
    + rewrite (chatHandler_undecodable c w e D). split; reflexivity.
    + rewrite (chatHandler_no_question c w m D Q). split; reflexivity.
    + destruct (NV question V).
  - intros question V. split; [exact (chatHandler_sent c w question V)|].
    rewrite (chatHandler_issued c w question V).
    destruct (hops_first w (upstreamRequest (apiKeyOf w) question))
      as (rest & -> & L).
    by exists rest.
  - intros question e V Hrt.
    split; [exact (U question e V Hrt)|exact (chatHandler_sent c w question V)].
  - intros question e V H0.
    destruct (Do_failed w _ e H0) as [Hrt Hh].
    split; [exact (U question e V Hrt)|].
    by rewrite (chatHandler_issued c w question V), Hh.
  - intros question resp V H0 NR.
    destruct (Do_final w (upstreamRequest (apiKeyOf w) question) resp H0 NR)
      as [_ Hh].
    by rewrite (chatHandler_issued c w question V), Hh.
Qed.

Lemma at_most_one_attempt_witness :
  fst (chatHandler (ask "hi") unreachable)
  = {| fiber.code := 500;
       fiber.body :=
         {["error" := VString "Error sending request: dial tcp: connect: connection refused"]} |}
  /\ issued (snd (chatHandler (ask "hi") unreachable))
     = [firstHop (upstreamRequest "nvapi-0" "hi")].
Proof.
  apply (proj1 (proj2 (proj2 (proj2 (proj2
           (at_most_one_attempt (ask "hi") unreachable))))) "hi"
           (errorString "dial tcp: connect: connection refused")).
  - exact ask_hi_validated.
  - reflexivity.
Defined.

(** C7 as stated fails when the upstream answers with a redirect: the
    client posts the payload again to the place it is sent to, so that for
    one request of a caller two HTTP requests are issued. *)
Lemma redirect_is_followed :
  let c := ask "hi" in
  let req := upstreamRequest "nvapi-0" "hi" in
  validated c "hi"
  /\ exchange redirecting req 0%nat
     = inr (moved 307 "307 Temporary Redirect" elsewhere)
  /\ sent (snd (chatHandler c redirecting)) = [req]
  /\ issued (snd (chatHandler c redirecting))
     = [ firstHop req;
         {| http.HopMethod := "POST"; http.HopTarget := elsewhere;
            http.HopBody := Some (http.Body req) |} ]
  /\ length (issued (snd (chatHandler c redirecting))) = 2%nat
  /\ fst (chatHandler c redirecting)
     = {| fiber.code := 200; fiber.body := {["answer" := VString "42"]} |}.
Proof.
  intros c req. split; [exact ask_hi_validated|].
  repeat split; vm_compute; reflexivity.
Qed.

(** ** C8: a body that does not decode *)

(** C8, as amended. When the request body does not decode, the caller gets
    status 400 with the message "Invalid request body" and nothing is sent
    upstream. With the JSON decoder this is so for every body that is not
    valid JSON and for every valid one whose top-level value is an array, a
    string, a number or a boolean. The body [null], though, decodes: it is
    turned away as a missing question, with status 400 and the message
    "Invalid question format or empty question", and again nothing is sent
    upstream. These are all the bodies that are valid JSON and not an
    object. *)
Theorem undecodable_body_rejected :
  (forall c w e,
      fiber.BodyParser c = inl e ->
      fst (chatHandler c w)
      = {| fiber.code := 400;
           fiber.body := {["error" := VString "Invalid request body"]} |}
      /\ sent (snd (chatHandler c w)) = sent w)
  /\ (forall reqbody w,
      (exists e, json.checkValid reqbody = inl e)
      \/ (exists v kind, json.Valid reqbody v /\ rejected_as v = Some kind) ->
      let c := fiber.AcquireCtx reqbody fiber.JSONDecoder in
      fst (chatHandler c w)
      = {| fiber.code := 400;
           fiber.body := {["error" := VString "Invalid request body"]} |}
      /\ sent (snd (chatHandler c w)) = sent w)
  /\ (forall reqbody w,
      json.Valid reqbody VNil ->
      let c := fiber.AcquireCtx reqbody fiber.JSONDecoder in
      fst (chatHandler c w)
      = {| fiber.code := 400;
           fiber.body :=
             {["error" := VString "Invalid question format or empty question"]} |}
      /\ sent (snd (chatHandler c w)) = sent w)
  /\ (forall reqbody v,
      json.Valid reqbody v ->
      (forall m, v <> VMap m) ->
      v = VNil \/ exists kind, rejected_as v = Some kind).
Proof.
  assert (G : forall c w e,
      fiber.BodyParser c = inl e ->
      fst (chatHandler c w)
      = {| fiber.code := 400;
           fiber.body := {["error" := VString "Invalid request body"]} |}
      /\ sent (snd (chatHandler c w)) = sent w).
  { intros c w e D. rewrite (chatHandler_undecodable c w e D).
    split; reflexivity. }
  split; [exact G|split; [|split]].
  - intros reqbody w [[e Bad] | (v & kind & J & K)] c.
    + apply (G c w e). exact (Unmarshal_invalid reqbody e Bad).
    + apply (G c w (UnmarshalTypeError kind json.mapType)).
      exact (Unmarshal_rejected reqbody v kind J K).
  - intros reqbody w J c.
    rewrite (chatHandler_no_question c w ∅ (Unmarshal_of_null reqbody J));
      [split; reflexivity|].
    left. reflexivity.
  - intros reqbody v J NotObj.
    destruct (Valid_top_cases reqbody v J) as [[m ->] | [-> | [kind K]]].
    + destruct (NotObj m eq_refl).
    + by left.
    + right. by exists kind.
Qed.

Lemma undecodable_body_rejected_witness :
  fst (chatHandler (fiber.AcquireCtx "{question: hi" fiber.JSONDecoder)
         (answering 200 "200 OK" body42))
  = {| fiber.code := 400;
       fiber.body := {["error" := VString "Invalid request body"]} |}
  /\ sent (snd (chatHandler (fiber.AcquireCtx "{question: hi" fiber.JSONDecoder)
                  (answering 200 "200 OK" body42)))
     = [].
Proof.
  apply (proj1 (proj2 undecodable_body_rejected) "{question: hi"
           (answering 200 "200 OK" body42)).
  left.
  exists (SyntaxError
            "invalid character 'q' looking for beginning of object key string").
  vm_compute. reflexivity.
Defined.

(** C8 as stated fails for the body [null]: it is valid JSON with a
    top-level value that is not an object, yet it decodes, and the caller
    is told of an invalid question, not of an invalid body. *)
Lemma null_request_body_is_invalid_question :
  let c := fiber.AcquireCtx "null" fiber.JSONDecoder in
  let w := answering 200 "200 OK" body42 in
  json.Valid "null" VNil
  /\ (forall m, VNil <> VMap m)
  /\ fiber.BodyParser c = inr ∅
  /\ fst (chatHandler c w)
     = {| fiber.code := 400;
          fiber.body :=
            {["error" := VString "Invalid question format or empty question"]} |}
  /\ fst (chatHandler c w)
     <> {| fiber.code := 400;
           fiber.body := {["error" := VString "Invalid request body"]} |}
  /\ sent (snd (chatHandler c w)) = [].
Proof.
  intros c w.
  split; [eexists; split; vm_compute; reflexivity|].
  split; [discriminate|].
  split; [vm_compute; reflexivity|].
  assert (E : fst (chatHandler c w)
              = {| fiber.code := 400;
                   fiber.body :=
                     {["error" := VString "Invalid question format or empty question"]} |})
    by (vm_compute; reflexivity).
  split; [exact E|]. split; [|vm_compute; reflexivity].
  rewrite E. intros H. apply (f_equal (fun r => fiber.body r !! "error")) in H.
  cbn [fiber.body] in H. rewrite !lookup_singleton_eq in H. discriminate.
Qed.

(** ** C9: a 200 body that is JSON but not an object *)

(** C9, as amended. When the upstream answers with status 200 and a body
    that is valid JSON but not an object, then either its top-level value is
    an array, a string, a number or a boolean, and the caller gets status
    500 with a message that begins "Error parsing JSON response" and goes on
    with the decoder's type error; or it is [null], which decodes without
    error, and the caller gets status 500 with "Unexpected response
    structure from API". *)
Theorem non_object_json_at_200 :
  forall c w question resp body v,
    validated c question ->
    responds w question resp body ->
    http.StatusCode resp = 200 ->
    json.Valid body v ->
    (forall m, v <> VMap m) ->
    (exists kind,
        rejected_as v = Some kind
        /\ fst (chatHandler c w)
           = {| fiber.code := 500;
                fiber.body :=
                  {["error" :=
                      VString ("Error parsing JSON response: "
                               ++ "json: cannot unmarshal " ++ kind
                               ++ " into Go value of type map[string]interface {}")]} |})
    \/ (v = VNil
        /\ fst (chatHandler c w)
           = {| fiber.code := 500;
                fiber.body :=
                  {["error" := VString "Unexpected response structure from API"]} |}).
Proof.
  intros c w question resp body v V R S200 J NotObj.
  rewrite (chatHandler_answered_200 c w question V resp body R S200).
  destruct (Valid_top_cases body v J) as [[m ->] | [-> | [kind K]]].
  - destruct (NotObj m eq_refl).
  - right. split; [reflexivity|].
    rewrite (extractAnswer_misshaped c body w ∅ (Unmarshal_of_null body J)
               empty_misshaped).
    reflexivity.
  - left. exists kind. split; [exact K|].
    rewrite (extractAnswer_parse_error c body w _
               (Unmarshal_rejected body v kind J K)).
    reflexivity.
Qed.

Lemma non_object_json_at_200_witness :
  (exists kind,
      rejected_as (VSlice [VFloat64 "1"; VFloat64 "2"]) = Some kind
      /\ fst (chatHandler (ask "hi") (answering 200 "200 OK" "[1, 2]"))
         = {| fiber.code := 500;
              fiber.body :=
                {["error" :=
                    VString ("Error parsing JSON response: "
                             ++ "json: cannot unmarshal " ++ kind
                             ++ " into Go value of type map[string]interface {}")]} |})
  \/ (VSlice [VFloat64 "1"; VFloat64 "2"] = VNil
      /\ fst (chatHandler (ask "hi") (answering 200 "200 OK" "[1, 2]"))
         = {| fiber.code := 500;
              fiber.body :=
                {["error" := VString "Unexpected response structure from API"]} |}).
Proof.
  apply (non_object_json_at_200 (ask "hi") (answering 200 "200 OK" "[1, 2]")
           "hi" (response 200 "200 OK" "[1, 2]") "[1, 2]").
  - exact ask_hi_validated.
  - apply answering_responds.
  - reflexivity.
  - eexists. split; vm_compute; reflexivity.
  - discriminate.
Defined.

(** C9 as stated fails for the body [null]: it is valid JSON and not an
    object, yet [json.Unmarshal] stores it in a map without error, and the
    reply is the shape error, whose text does not begin with
    "Error parsing JSON response". *)
Lemma null_body_is_a_shape_error :
  let c := ask "hi" in
  let w := answering 200 "200 OK" "null" in
  validated c "hi"
  /\ responds w "hi" (response 200 "200 OK" "null") "null"
  /\ json.Valid "null" VNil
  /\ (forall m, VNil <> VMap m)
  /\ fst (chatHandler c w)
     = {| fiber.code := 500;
          fiber.body :=
            {["error" := VString "Unexpected response structure from API"]} |}
  /\ String.prefix "Error parsing JSON response"
       "Unexpected response structure from API" = false.
Proof.
  intros c w. split; [exact ask_hi_validated|].
  split; [apply answering_responds|].
  split; [eexists; split; vm_compute; reflexivity|].
  split; [discriminate|].
  split; vm_compute; reflexivity.
Qed.

(** ** C10: nothing but the question matters *)

(** C10. Two requests whose bodies decode to objects with the same string
    under [question] are handled alike in every world: the same reply, the
    same request handed to the client, the same log. *)
Theorem only_the_question_matters :
  forall body1 d1 body2 d2 m1 m2 question w,
    let c1 := fiber.AcquireCtx body1 d1 in
    let c2 := fiber.AcquireCtx body2 d2 in
    fiber.BodyParser c1 = inr m1 ->
    fiber.BodyParser c2 = inr m2 ->
    m1 !! "question" = Some (VString question) ->
    m2 !! "question" = Some (VString question) ->
    chatHandler c1 w = chatHandler c2 w.
Proof.
  intros body1 d1 body2 d2 m1 m2 question w c1 c2 D1 D2 Q1 Q2.
  destruct (String.eqb_spec question EmptyString) as [->|Hne].
  - rewrite (chatHandler_no_question c1 w m1 D1),
            (chatHandler_no_question c2 w m2 D2);
      [reflexivity| |]; right; [rewrite Q2|rewrite Q1]; reflexivity.
  - rewrite (chatHandler_validated c1 w question),
            (chatHandler_validated c2 w question);
      [|exists m2; auto|exists m1; auto].
    apply askUpstream_ext. reflexivity.
Qed.

Lemma only_the_question_matters_witness :
  chatHandler (ask "hi") (answering 200 "200 OK" body42)
  = chatHandler (fiber.AcquireCtx verbose_body fiber.JSONDecoder)
      (answering 200 "200 OK" body42).
Proof.
  apply (only_the_question_matters (question_body "hi") fiber.JSONDecoder
           verbose_body fiber.JSONDecoder
           {["question" := VString "hi"]}
           {["user" := VString "bob"; "question" := VString "hi";
             "temperature" := VFloat64 "2"]}
           "hi").
  - vm_compute. reflexivity.
  - vm_compute. reflexivity.
  - vm_compute. reflexivity.
  - vm_compute. reflexivity.
Defined.

(** * Further lemmas on the handler *)

Section Frame.

Context (c : fiber.Ctx).

Lemma extractAnswer_world body w :
  snd (extractAnswer c body w)
  = {| environ := environ w; exchange := exchange w; sent := sent w;
       issued := issued w;
       logged := logged w ++ extract_entries body |}.
Proof.
  unfold extract_entries.
  walk_extractAnswer ltac:(first [ reflexivity
                                 | cbn [snd mret M_ret]; rewrite app_nil_r;
                                   by destruct w ]).
Qed.

Lemma askUpstream_world k question w :
  snd (askUpstream c k question w)
  = {| environ := environ w; exchange := exchange w;
       sent := sent w ++ [upstreamRequest k question];
       issued := issued w ++ hops w (upstreamRequest k question);
       logged := logged w
                 ++ exchange_entries question
                      (RoundTrip w (upstreamRequest k question)) |}.
Proof.
  unfold askUpstream, exchange_entries. rewrite NewRequest_apiURL.
  fold (upstreamRequest k question).
  unfold mbind, M_bind, client_Do, log, RoundTrip, hops.
  cbn [environ exchange sent issued logged].
  destruct (http.Do _ _) as [[e|resp] l]; cbn [fst snd].
  { cbn [snd mret M_ret environ exchange sent issued logged].
    by rewrite <- !app_assoc. }
  destruct (http.ReadAll _) as [e|body].
  { cbn [snd mret M_ret environ exchange sent issued logged].
    by rewrite <- !app_assoc. }
  destruct (http.StatusCode resp =? http.StatusOK); cbn [negb].
  - rewrite extractAnswer_world. cbn [environ exchange sent issued logged].
    by rewrite <- !app_assoc.
  - cbn [snd mret M_ret environ exchange sent issued logged].
    by rewrite <- !app_assoc.
Qed.

End Frame.

Lemma apiKeyOf_environ w w' : environ w' = environ w -> apiKeyOf w' = apiKeyOf w.
Proof. unfold apiKeyOf. by intros ->. Qed.

(** The reply of [extractAnswer] is read off the first element of
    [choices]. *)
Lemma extractAnswer_first_choice c body1 body2 w1 w2 r1 r2 first rest1 rest2 :
  json.Unmarshal body1 = inr r1 ->
  json.Unmarshal body2 = inr r2 ->
  r1 !! "choices" = Some (VSlice (first :: rest1)) ->
  r2 !! "choices" = Some (VSlice (first :: rest2)) ->
  fst (extractAnswer c body1 w1) = fst (extractAnswer c body2 w2).
Proof.
  intros U1 U2 C1 C2. unfold extractAnswer. rewrite U1, U2, C1, C2.
  cbn [assert_slice negb orb length Nat.eqb lookup list_lookup].
  destruct (assert_map (Some first)) as [fc ok2].
  destruct (negb ok2); [reflexivity|].
  destruct (assert_map (fc !! _)) as [msg ok3].
  destruct (negb ok3); [reflexivity|].
  destruct (assert_string _) as [a ok4].
  destruct (negb ok4); reflexivity.
Qed.

Lemma chatHandler_world_validated c w question :
  validated c question ->
  snd (chatHandler c w)
  = {| environ := environ w; exchange := exchange w;
       sent := sent w ++ [upstreamRequest (apiKeyOf w) question];
       issued := issued w ++ hops w (upstreamRequest (apiKeyOf w) question);
       logged := logged w
                 ++ Println "Received request for chat"
                 :: exchange_entries question
                      (RoundTrip w (upstreamRequest (apiKeyOf w) question)) |}.
Proof.
  intros V. rewrite (chatHandler_validated c w question V), askUpstream_world.
  cbn [logging log snd environ exchange sent issued logged].
  by rewrite <- app_assoc.
Qed.


(** * Further theorems on the handler *)

(** X1. The request handed to the client for a validated question is a POST
    to the fixed completions URL with exactly two header fields:
    [Content-Type: application/json] and [Authorization], which is "Bearer "
    followed by the value of NVIDIA_API_KEY in the environment, or by
    nothing when the variable is not set. *)
Theorem upstream_request_envelope :
  forall c w question,
    validated c question ->
    exists req,
      sent (snd (chatHandler c w)) = (sent w ++ [req])%list
      /\ http.Method req = "POST"
      /\ http.URL req = "https://integrate.api.nvidia.com/v1/chat/completions"
      /\ dom (http.Header req) = ({["Content-Type"; "Authorization"]} : gset string)
      /\ http.Header req !! "Content-Type" = Some ["application/json"]
      /\ (forall key, environ w !! "NVIDIA_API_KEY" = Some key ->
            http.Header req !! "Authorization" = Some ["Bearer " ++ key])
      /\ (environ w !! "NVIDIA_API_KEY" = None ->
          http.Header req !! "Authorization" = Some ["Bearer "]).
Proof.
  intros c w question V.
  exists (upstreamRequest (apiKeyOf w) question).
  split; [exact (chatHandler_sent c w question V)|].
  split; [reflexivity|]. split; [reflexivity|].
  split; [vm_compute; reflexivity|]. split; [reflexivity|]. split.
  - intros key K. unfold apiKeyOf. rewrite K. reflexivity.
  - intros K. unfold apiKeyOf. rewrite K. reflexivity.
Qed.

Lemma upstream_request_envelope_witness :
  exists req,
    sent (snd (chatHandler (ask "hi") unreachable)) = [req]
    /\ http.Method req = "POST"
    /\ http.URL req = "https://integrate.api.nvidia.com/v1/chat/completions"
    /\ dom (http.Header req) = ({["Content-Type"; "Authorization"]} : gset string)
    /\ http.Header req !! "Content-Type" = Some ["application/json"]
    /\ (forall key, environ unreachable !! "NVIDIA_API_KEY" = Some key ->
          http.Header req !! "Authorization" = Some ["Bearer " ++ key])
    /\ (environ unreachable !! "NVIDIA_API_KEY" = None ->
        http.Header req !! "Authorization" = Some ["Bearer "]).
Proof.
  exact (upstream_request_envelope (ask "hi") unreachable "hi" ask_hi_validated).
Defined.

(** X2. When the response arrives but its body cannot be read to the end,
    the caller gets status 500 with "Error reading response body: " and the
    text of the read error, whatever the status of the response was; the
    request has been handed to the client once. *)
Theorem unreadable_response_is_500 :
  forall c w question resp e,
    validated c question ->
    RoundTrip w (upstreamRequest (apiKeyOf w) question) = inr resp ->
    http.ReadAll (http.RespBody resp) = inl e ->
    fst (chatHandler c w)
    = {| fiber.code := 500;
         fiber.body :=
           {["error" := VString ("Error reading response body: " ++ Error e)]} |}
    /\ sent (snd (chatHandler c w))
       = (sent w ++ [upstreamRequest (apiKeyOf w) question])%list.
Proof.
  intros c w question resp e V Hrt Hrd.
  split; [|exact (chatHandler_sent c w question V)].
  rewrite (chatHandler_validated c w question V), askUpstream_reply.
  change (RoundTrip (logging _ w)) with (RoundTrip w). rewrite Hrt, Hrd.
  reflexivity.
Qed.

Lemma unreadable_response_is_500_witness :
  fst (chatHandler (ask "hi") (world (fun _ => inr broken_response)))
  = {| fiber.code := 500;
       fiber.body :=
         {["error" := VString "Error reading response body: unexpected EOF"]} |}
  /\ sent (snd (chatHandler (ask "hi") (world (fun _ => inr broken_response))))
     = [upstreamRequest "nvapi-0" "hi"].
Proof.
  apply (unreadable_response_is_500 (ask "hi")
           (world (fun _ => inr broken_response)) "hi" broken_response
           (errorString "unexpected EOF")).
  - exact ask_hi_validated.
  - reflexivity.
  - reflexivity.
Defined.

(** X3. When the upstream answers with status 200 and a body that
    [json.Unmarshal] refuses - text that is not JSON, an empty body, a
    number out of range - the caller gets status 500 with
    "Error parsing JSON response: " and the text of the decoder's error. *)
Theorem undecodable_answer_is_500 :
  forall c w question resp body e,
    validated c question ->
    responds w question resp body ->
    http.StatusCode resp = 200 ->
    json.Unmarshal body = inl e ->
    fst (chatHandler c w)
    = {| fiber.code := 500;
         fiber.body :=
           {["error" := VString ("Error parsing JSON response: " ++ Error e)]} |}.
Proof.
  intros c w question resp body e V R S200 U.
  rewrite (chatHandler_answered_200 c w question V resp body R S200).
  rewrite (extractAnswer_parse_error c body w e U). reflexivity.
Qed.

Lemma undecodable_answer_is_500_witness :
  fst (chatHandler (ask "hi") (answering 200 "200 OK" EmptyString))
  = {| fiber.code := 500;
       fiber.body :=
         {["error" := VString "Error parsing JSON response: unexpected end of JSON input"]} |}.
Proof.
  apply (undecodable_answer_is_500 (ask "hi")
           (answering 200 "200 OK" EmptyString) "hi"
           (response 200 "200 OK" EmptyString) EmptyString
           (SyntaxError "unexpected end of JSON input")).
  - exact ask_hi_validated.
  - apply answering_responds.
  - reflexivity.
  - vm_compute. reflexivity.
Defined.

(** X4. Of a 200 body only the first element of [choices] is read: two
    bodies that decode to objects with the same first choice get the same
    reply, whatever further choices and whatever other keys they hold. *)
Theorem only_the_first_choice_is_read :
  forall c w1 w2 question resp1 resp2 body1 body2 r1 r2 first rest1 rest2,
    validated c question ->
    responds w1 question resp1 body1 ->
    responds w2 question resp2 body2 ->
    http.StatusCode resp1 = 200 ->
    http.StatusCode resp2 = 200 ->
    json.Unmarshal body1 = inr r1 ->
    json.Unmarshal body2 = inr r2 ->
    r1 !! "choices" = Some (VSlice (first :: rest1)) ->
    r2 !! "choices" = Some (VSlice (first :: rest2)) ->
    fst (chatHandler c w1) = fst (chatHandler c w2).
Proof.
  intros c w1 w2 question resp1 resp2 body1 body2 r1 r2 first rest1 rest2
    V R1 R2 S1 S2 U1 U2 C1 C2.
  rewrite (chatHandler_answered_200 c w1 question V resp1 body1 R1 S1).
  rewrite (chatHandler_answered_200 c w2 question V resp2 body2 R2 S2).
  exact (extractAnswer_first_choice c body1 body2 w1 w2 r1 r2 first
           rest1 rest2 U1 U2 C1 C2).
Qed.

Lemma only_the_first_choice_is_read_witness :
  fst (chatHandler (ask "hi") (answering 200 "200 OK" body42))
  = fst (chatHandler (ask "hi") (answering 200 "200 OK" body_two_choices)).
Proof.
  eapply (only_the_first_choice_is_read (ask "hi")
            (answering 200 "200 OK" body42)
            (answering 200 "200 OK" body_two_choices) "hi").
  - exact ask_hi_validated.
  - apply answering_responds.
  - apply answering_responds.
  - reflexivity.
  - reflexivity.
  - vm_compute. reflexivity.
  - vm_compute. reflexivity.
  - vm_compute. reflexivity.
  - vm_compute. reflexivity.
Defined.

(** X5. Provided the upstream never reports the status code 0, the status
    of the reply to a fresh request is 200 exactly when the reply carries an
    [answer]; a reply that carries an [error] has another status; and a
    reply with another status carries an [error], or no body at all when that
    status is one with which none is sent. An [answer] comes with status
    200 in any case. *)
Theorem status_200_iff_answer :
  forall reqbody d w,
    let r := fst (chatHandler (fiber.AcquireCtx reqbody d) w) in
    (answer_only (fiber.body r) -> fiber.code r = 200)
    /\ ((forall req resp,
           RoundTrip w req = inr resp -> http.StatusCode resp <> 0) ->
        (fiber.code r = 200 -> answer_only (fiber.body r))
        /\ (error_only (fiber.body r) -> fiber.code r <> 200)
        /\ (fiber.code r <> 200 ->
            error_only (fiber.body r)
            \/ fiber.body r = ∅ /\ fiber.mustSkipBody (fiber.code r) = true)).
Proof.
  intros reqbody d w r. subst r.
  assert (AE : forall a e : string,
             ({["answer" := VString a]} : gmap string any)
             <> {["error" := VString e]}).
  { intros a e H. apply (f_equal (fun m => m !! "answer")) in H.
    rewrite lookup_singleton_eq, lookup_singleton_ne in H; done. }
  destruct (chatHandler_reply_kinds (fiber.AcquireCtx reqbody d) w)
    as [[a ->] | [(st & msg & -> & Hst)
                 | (question & resp & body & V & R & NE & ->)]].
  - cbn [fiber.JSON fiber.code fiber.body fiber.AcquireCtx fiber.status].
    change (fiber.StatusCode http.StatusOK) with 200.
    change (fiber.mustSkipBody http.StatusOK) with false. cbv iota.
    split; [done|]. intros _. split; [intros _; by exists a|].
    split; [|done]. intros [e He]. destruct (AE a e He).
  - assert (B : fiber.body (errorReply st msg (fiber.AcquireCtx reqbody d))
                = {["error" := VString msg]})
      by (destruct Hst as [-> | ->]; reflexivity).
    assert (C : fiber.code (errorReply st msg (fiber.AcquireCtx reqbody d))
                <> 200)
      by (destruct Hst as [-> | ->]; discriminate).
    rewrite B.
    split; [intros [a Ha]; symmetry in Ha; destruct (AE a msg Ha)|].
    intros _. split; [intros E; destruct (C E)|].
    split; [intros _; exact C|]. intros _. left. by exists msg.
  - rewrite errorReply_code, errorReply_body.
    assert (A : forall m : gmap string any,
               m = ∅ \/ m = {["error" := VString
                                ("API returned non-200 status: "
                                 ++ http.Status resp ++ nl ++ "Body: " ++ body)]} ->
               ~ answer_only m).
    { intros m [-> | ->] [a Ha].
      - symmetry in Ha. exact (singleton_not_empty _ _ Ha).
      - symmetry in Ha. exact (AE _ _ Ha). }
    split.
    { intros H. exfalso. revert H. apply A.
      destruct (fiber.mustSkipBody _); auto. }
    intros NZ. destruct R as [Hrt Hrd]. pose proof (NZ _ _ Hrt) as Z0.
    assert (C : fiber.StatusCode (http.StatusCode resp) = http.StatusCode resp).
    { unfold fiber.StatusCode.
      by destruct (Z.eqb_spec (http.StatusCode resp) 0). }
    rewrite C. split; [intros E; destruct (NE E)|].
    split; [intros _; exact NE|]. intros _.
    destruct (fiber.mustSkipBody _); [right; by split|left; by eexists].
Qed.

Lemma status_200_iff_answer_witness :
  let r := fst (chatHandler (ask "hi") (answering 200 "200 OK" body42)) in
  (fiber.code r = 200 -> answer_only (fiber.body r))
  /\ (error_only (fiber.body r) -> fiber.code r <> 200)
  /\ (fiber.code r <> 200 ->
      error_only (fiber.body r)
      \/ fiber.body r = ∅ /\ fiber.mustSkipBody (fiber.code r) = true).
Proof.
  apply (proj2 (status_200_iff_answer (question_body "hi") fiber.JSONDecoder
                  (answering 200 "200 OK" body42))).
  intros req resp H. rewrite answering_RoundTrip in H.
  injection H as <-. discriminate.
Defined.

(** X6. The credential reaches nothing but the request: in two worlds, with
    whatever keys, in which the network gives the same outcome to the
    request for the question, the caller gets the same reply and the same
    lines are added to the log. *)
Theorem credential_reaches_only_the_request :
  forall c w1 w2,
    (forall question,
        validated c question ->
        RoundTrip w1 (upstreamRequest (apiKeyOf w1) question)
        = RoundTrip w2 (upstreamRequest (apiKeyOf w2) question)) ->
    fst (chatHandler c w1) = fst (chatHandler c w2)
    /\ exists l,
        logged (snd (chatHandler c w1)) = (logged w1 ++ l)%list
        /\ logged (snd (chatHandler c w2)) = (logged w2 ++ l)%list.
Proof.
  intros c w1 w2 Same.
  destruct (validation_cases c) as [[e D] | [(m & D & Q) | [question V]]].
  - rewrite !(chatHandler_undecodable c _ e D). split; [reflexivity|].
    eexists [_; _]. cbn [snd logging log logged].
    split; by rewrite <- app_assoc.
  - rewrite !(chatHandler_no_question c _ m D Q). split; [reflexivity|].
    eexists. split; reflexivity.
  - split.
    + rewrite !(chatHandler_validated c _ question V), !askUpstream_reply.
      change (RoundTrip (logging ?l ?w)) with (RoundTrip w).
      rewrite (Same question V).
      destruct (RoundTrip w2 _) as [e|resp]; [reflexivity|].
      destruct (http.ReadAll _) as [e|body]; [reflexivity|].
      destruct (_ =? _); [apply extractAnswer_reply|reflexivity].
    + rewrite !(chatHandler_world_validated c _ question V).
      cbn [logged]. rewrite (Same question V). eexists. split; reflexivity.
Qed.

Lemma credential_reaches_only_the_request_witness :
  fst (chatHandler (ask "hi")
         (world_with_key "nvapi-1" (fun _ => inr (response 200 "200 OK" body42))))
  = fst (chatHandler (ask "hi")
           (world_with_key "nvapi-2" (fun _ => inr (response 200 "200 OK" body42))))
  /\ exists l,
      logged (snd (chatHandler (ask "hi")
                     (world_with_key "nvapi-1"
                        (fun _ => inr (response 200 "200 OK" body42)))))
      = ([] ++ l)%list
      /\ logged (snd (chatHandler (ask "hi")
                        (world_with_key "nvapi-2"
                           (fun _ => inr (response 200 "200 OK" body42)))))
         = ([] ++ l)%list.
Proof.
  apply (credential_reaches_only_the_request (ask "hi")
           (world_with_key "nvapi-1" (fun _ => inr (response 200 "200 OK" body42)))
           (world_with_key "nvapi-2" (fun _ => inr (response 200 "200 OK" body42)))).
  intros question _. reflexivity.
Defined.

(** X7. Nothing is remembered between requests: when the same validated
    request is handled twice in a row, the request for the question is
    handed to the client both times, and the second reply is the first one
    again. *)
Theorem nothing_is_cached :
  forall c w question,
    validated c question ->
    let first := chatHandler c w in
    let second := chatHandler c (snd first) in
    sent (snd second)
    = (sent w ++ [upstreamRequest (apiKeyOf w) question;
                  upstreamRequest (apiKeyOf w) question])%list
    /\ fst second = fst first.
Proof.
  intros c w question V first second. subst first second.
  pose proof (chatHandler_world_validated c w question V) as W1.
  set (w1 := snd (chatHandler c w)) in *.
  assert (K : apiKeyOf w1 = apiKeyOf w)
    by (apply apiKeyOf_environ; rewrite W1; reflexivity).
  assert (N : RoundTrip w1 = RoundTrip w) by (rewrite W1; reflexivity).
  assert (S : sent w1 = (sent w ++ [upstreamRequest (apiKeyOf w) question])%list)
    by (rewrite W1; reflexivity).
  clearbody w1. split.
  - rewrite (chatHandler_sent c w1 question V), K, S.
    by rewrite <- app_assoc.
  - rewrite (chatHandler_validated c w1 question V),
      (chatHandler_validated c w question V), !askUpstream_reply.
    change (RoundTrip (logging ?l ?w)) with (RoundTrip w).
    rewrite K, N.
    destruct (RoundTrip w _) as [e|resp]; [reflexivity|].
    destruct (http.ReadAll _) as [e|body]; [reflexivity|].
    destruct (_ =? _); [apply extractAnswer_reply|reflexivity].
Qed.

Lemma nothing_is_cached_witness :
  sent (snd (chatHandler (ask "hi")
               (snd (chatHandler (ask "hi") (answering 200 "200 OK" body42)))))
  = [upstreamRequest "nvapi-0" "hi"; upstreamRequest "nvapi-0" "hi"]
  /\ fst (chatHandler (ask "hi")
            (snd (chatHandler (ask "hi") (answering 200 "200 OK" body42))))
     = fst (chatHandler (ask "hi") (answering 200 "200 OK" body42)).
Proof.
  exact (nothing_is_cached (ask "hi") (answering 200 "200 OK" body42) "hi"
           ask_hi_validated).
Defined.

(** X14. Whatever the request and whatever the network does, a reply to a
    fresh request that is sent with a body is either the single field
    [answer] or the single field [error], each holding a string: exactly one
    of the two fields is present. A reply is without a body, and so has
    neither field, only when it passes on an upstream status with which no
    body is sent: 1xx, 204 or 304. *)
Theorem body_is_one_field_or_absent :
  forall reqbody d w,
    let c := fiber.AcquireCtx reqbody d in
    let r := fst (chatHandler c w) in
    let b := fiber.body r in
    (fiber.mustSkipBody (fiber.code r) = false ->
     (answer_only b \/ error_only b)
     /\ (is_Some (b !! "answer") /\ b !! "error" = None
         \/ b !! "answer" = None /\ is_Some (b !! "error")))
    /\ (fiber.mustSkipBody (fiber.code r) = true ->
        b = ∅
        /\ exists question resp body,
             validated c question
             /\ responds w question resp body
             /\ http.StatusCode resp = fiber.code r).
Proof.
  intros reqbody d w c r b.
  assert (X : answer_only b \/ error_only b ->
              is_Some (b !! "answer") /\ b !! "error" = None
              \/ b !! "answer" = None /\ is_Some (b !! "error")).
  { intros [[a ->] | [e ->]]; [left|right]; split;
      first [ by rewrite lookup_singleton_eq | by rewrite lookup_singleton_ne ]. }
  assert (K : (fiber.mustSkipBody (fiber.code r) = false ->
               answer_only b \/ error_only b)
              /\ (fiber.mustSkipBody (fiber.code r) = true ->
                  b = ∅
                  /\ exists question resp body,
                       validated c question
                       /\ responds w question resp body
                       /\ http.StatusCode resp = fiber.code r)).
  { subst b r.
    destruct (chatHandler_reply_kinds c w)
      as [[a ->] | [(st & msg & -> & Hst) | (question & resp & body & V & R & NE & ->)]].
    - split; [intros _; left; by exists a|discriminate].
    - rewrite errorReply_code, errorReply_body.
      destruct Hst as [-> | ->];
        (split; [intros _; right; by exists msg|discriminate]).
    - rewrite errorReply_code, errorReply_body, mustSkipBody_code.
      split; intros Sk; rewrite Sk; [right; by eexists|].
      split; [reflexivity|]. exists question, resp, body.
      split; [exact V|]. split; [exact R|].
      unfold fiber.StatusCode.
      destruct (Z.eqb_spec (http.StatusCode resp) 0) as [E|]; [|reflexivity].
      rewrite E in Sk. discriminate. }
  destruct K as [K1 K2]. split; [|exact K2].
  intros Sk. split; [exact (K1 Sk)|exact (X (K1 Sk))].
Qed.

Lemma body_is_one_field_or_absent_witness :
  let b := fiber.body (fst (chatHandler (ask "hi")
                              (answering 200 "200 OK" body42))) in
  (answer_only b \/ error_only b)
  /\ (is_Some (b !! "answer") /\ b !! "error" = None
      \/ b !! "answer" = None /\ is_Some (b !! "error")).
Proof.
  apply (proj1 (body_is_one_field_or_absent (question_body "hi")
                  fiber.JSONDecoder (answering 200 "200 OK" body42))).
  vm_compute. reflexivity.
Defined.

(** * Properties of [handleSubmit] *)

Lemma app_one_neq {A} (l : list A) (x : A) : (l ++ [x])%list <> l.
Proof.
  intros H. apply (f_equal (@length A)) in H.
  rewrite length_app in H. cbn in H. lia.
Qed.

(** ** [trim] *)

Lemma trimStart_nil s :
  js.trimStart s = [] <-> forallb js.isWhiteSpace s = true.
Proof.
  induction s as [|u t IH]; [done|]. cbn [js.trimStart forallb].
  destruct (js.isWhiteSpace u); [exact IH|]. split; discriminate.
Qed.

Lemma trimStart_head s u t :
  js.trimStart s = u :: t -> js.isWhiteSpace u = false.
Proof.
  induction s as [|v s IH]; [discriminate|]. cbn [js.trimStart].
  destruct (js.isWhiteSpace v) eqn:E; [exact IH|]. by intros [= <- _].
Qed.

Lemma forallb_rev {A} (f : A -> bool) l : forallb f (rev l) = forallb f l.
Proof.
  induction l as [|x l IH]; [done|]. cbn [rev forallb].
  rewrite forallb_app, IH. cbn. rewrite andb_true_r. apply andb_comm.
Qed.

(** The trimmed string is empty exactly when every code unit of the string
    is white space. *)
Lemma trim_nil s : js.trim s = [] <-> forallb js.isWhiteSpace s = true.
Proof.
  unfold js.trim. split.
  - intros H. apply (f_equal (@rev N)) in H. rewrite rev_involutive in H.
    cbn in H. apply trimStart_nil in H. rewrite forallb_rev in H.
    destruct (js.trimStart s) as [|u t] eqn:E; [by apply trimStart_nil|].
    apply trimStart_head in E. cbn in H. rewrite E in H. discriminate.
  - intros H. apply trimStart_nil in H. rewrite H. reflexivity.
Qed.

Lemma blank_test s :
  negb (js.truthy (js.Str (js.trim s))) = forallb js.isWhiteSpace s.
Proof.
  cbn [js.truthy]. rewrite negb_involutive.
  destruct (forallb js.isWhiteSpace s) eqn:E.
  - apply trim_nil in E. by rewrite E.
  - destruct (js.trim s) eqn:T; [|done].
    apply trim_nil in T. congruence.
Qed.

(** ** What [settle] leaves alone *)

Lemma catch_cases error st b :
  let b' := App.console_error [js.text "Error fetching answer:"; error] b in
  (exists m, App.catch error st b = App.finish m st b')
  \/ (exists e, App.catch error st b = (st, b', Some e)).
Proof.
  intros b'. unfold App.catch. fold b'.
  destruct (_ ≫= _) as [m|e]; [left|right]; by eexists.
Qed.

Lemma settle_cases o st b :
  exists b', App.post b' = App.post b /\ App.posted b' = App.posted b
    /\ ((exists m, App.settle o st b = App.finish m st b')
        \/ (exists e, App.settle o st b = (st, b', Some e))).
Proof.
  destruct o as [response|error]; cbn [App.settle].
  - destruct (_ ≫= _) as [answer|e].
    + exists b. repeat split. left. by eexists.
    + eexists. split; [|split; [|exact (catch_cases e st b)]]; reflexivity.
  - eexists. split; [|split; [|exact (catch_cases error st b)]]; reflexivity.
Qed.

(** ** The theorems on [handleSubmit] *)

(** X8. Input that is empty or all white space is ignored: the state stays
    as it is, nothing is posted and nothing is logged. Conversely, when
    nothing was posted the input was blank. *)
Theorem blank_input_is_ignored :
  forall st b,
    (forallb js.isWhiteSpace (App.input st) = true ->
     App.handleSubmit st b = (st, b, None))
    /\ (App.posted (App.browser_of (App.handleSubmit st b)) = App.posted b ->
        forallb js.isWhiteSpace (App.input st) = true).
Proof.
  intros st b. unfold App.handleSubmit. rewrite blank_test.
  destruct (forallb js.isWhiteSpace (App.input st)); [done|].
  split; [discriminate|]. intros H. exfalso.
  destruct (settle_cases
              (App.post b App.chatURL (App.questionData (App.input st)))
              (App.pending st)
              {| App.post := App.post b;
                 App.posted := App.posted b
                               ++ [(App.chatURL, App.questionData (App.input st))];
                 App.console := App.console b |})
    as (b' & _ & P & [[m E] | [e E]]);
    rewrite E in H; cbn in H; rewrite P in H; cbn in H;
    exact (app_one_neq _ _ H).
Qed.

Lemma blank_input_is_ignored_witness :
  App.handleSubmit (typed "  ") (server (App.Rejected js.Null))
  = (typed "  ", server (App.Rejected js.Null), None).
Proof.
  apply (proj1 (blank_input_is_ignored (typed "  ")
                  (server (App.Rejected js.Null)))).
  reflexivity.
Defined.

(** X9. Input with at least one code unit that is not white space is posted
    once, to the chat URL, as the object whose [question] is the input as
    typed, untrimmed; the user's message with that same text is added after
    the earlier messages, the input box is emptied, and at most the bot's
    message follows. *)
Theorem input_is_posted_as_typed :
  forall st b,
    forallb js.isWhiteSpace (App.input st) = false ->
    let r := App.handleSubmit st b in
    App.posted (App.browser_of r)
    = (App.posted b
       ++ [(js.lit "http://localhost:8000/chat/",
            js.Object {["question" := js.Str (App.input st)]})])%list
    /\ App.input (App.state_of r) = []
    /\ exists rest,
        App.messages (App.state_of r)
        = (App.messages st
           ++ {| App.role := js.lit "user";
                 App.content := js.Str (App.input st) |} :: rest)%list
        /\ (length rest <= 1)%nat.
Proof.
  intros st b NB r. subst r. unfold App.handleSubmit.
  rewrite blank_test, NB.
  destruct (settle_cases
              (App.post b App.chatURL (App.questionData (App.input st)))
              (App.pending st)
              {| App.post := App.post b;
                 App.posted := App.posted b
                               ++ [(App.chatURL, App.questionData (App.input st))];
                 App.console := App.console b |})
    as (b' & _ & P & [[m E] | [e E]]); rewrite E.
  - split; [exact P|]. split; [reflexivity|].
    exists [App.botMessage m]. split; [|done].
    cbn. by rewrite <- app_assoc.
  - split; [exact P|]. split; [reflexivity|].
    exists []. split; [reflexivity|]. cbn. lia.
Qed.

Lemma input_is_posted_as_typed_witness :
  let r := App.handleSubmit (typed " hi ")
             (server (App.Fulfilled (carrying "answer" "42"))) in
  App.posted (App.browser_of r)
  = ([] ++ [(js.lit "http://localhost:8000/chat/",
            js.Object {["question" := js.Str (js.lit " hi ")]})])%list
  /\ App.input (App.state_of r) = []
  /\ exists rest,
      App.messages (App.state_of r)
      = (App.messages (typed " hi ")
         ++ {| App.role := js.lit "user";
               App.content := js.Str (js.lit " hi ") |} :: rest)%list
      /\ (length rest <= 1)%nat.
Proof.
  apply (input_is_posted_as_typed (typed " hi ")
           (server (App.Fulfilled (carrying "answer" "42")))).
  reflexivity.
Defined.

(** X10. However the promise settles, what follows either adds exactly one
    message, the bot's, after the messages there are and clears the loading
    flag, or throws and leaves the state as it found it; it never touches
    the input box and posts nothing. So a submission of input that is not
    blank ends in one of two states: the earlier messages followed by the
    user's and the bot's with the loading flag cleared, or the earlier
    messages followed by the user's alone with the loading flag set. *)
Theorem settling_adds_one_message_or_throws :
  (forall o st b,
      let r := App.settle o st b in
      App.input (App.state_of r) = App.input st
      /\ App.posted (App.browser_of r) = App.posted b
      /\ (App.thrown_of r = None
          /\ App.isLoading (App.state_of r) = false
          /\ (exists m, App.messages (App.state_of r)
                        = (App.messages st
                           ++ [{| App.role := js.lit "bot";
                                  App.content := m |}])%list)
          \/ (exists e, App.thrown_of r = Some e) /\ App.state_of r = st))
  /\ (forall st b,
      forallb js.isWhiteSpace (App.input st) = false ->
      let r := App.handleSubmit st b in
      let user := {| App.role := js.lit "user";
                     App.content := js.Str (App.input st) |} in
      (App.thrown_of r = None
       /\ (exists m,
             App.state_of r
             = {| App.messages :=
                    App.messages st
                    ++ [user; {| App.role := js.lit "bot"; App.content := m |}];
                  App.input := []; App.isLoading := false |}))
      \/ ((exists e, App.thrown_of r = Some e)
          /\ App.state_of r
             = {| App.messages := App.messages st ++ [user];
                  App.input := []; App.isLoading := true |})).
Proof.
  split.
  - intros o st b r. subst r.
    destruct (settle_cases o st b) as (b' & _ & P & [[m E] | [e E]]); rewrite E.
    + split; [reflexivity|]. split; [exact P|]. left.
      split; [reflexivity|]. split; [reflexivity|]. by exists m.
    + split; [reflexivity|]. split; [exact P|]. right.
      split; [by exists e|reflexivity].
  - intros st b NB r user. subst r. unfold App.handleSubmit.
    rewrite blank_test, NB. cbn [negb].
    match goal with |- context [App.settle ?o ?s ?bb] =>
      destruct (settle_cases o s bb) as (b' & _ & _ & [[m E] | [e E]])
    end; rewrite E.
    + left. split; [reflexivity|]. exists m.
      cbv [App.finish App.state_of fst App.setIsLoading App.addMessage
           App.pending App.setInput App.messages App.input App.isLoading].
      by rewrite <- app_assoc.
    + right. split; [by exists e|reflexivity].
Qed.

Lemma settling_adds_one_message_or_throws_witness :
  let r := App.handleSubmit (typed "hi")
             (server (App.Fulfilled (carrying "answer" "42"))) in
  let user := {| App.role := js.lit "user";
                 App.content := js.Str (App.input (typed "hi")) |} in
  (App.thrown_of r = None
   /\ (exists m,
         App.state_of r
         = {| App.messages :=
                App.messages (typed "hi")
                ++ [user; {| App.role := js.lit "bot"; App.content := m |}];
              App.input := []; App.isLoading := false |}))
  \/ ((exists e, App.thrown_of r = Some e)
      /\ App.state_of r
         = {| App.messages := App.messages (typed "hi") ++ [user];
              App.input := []; App.isLoading := true |}).
Proof.
  apply (proj2 settling_adds_one_message_or_throws (typed "hi")
           (server (App.Fulfilled (carrying "answer" "42")))).
  reflexivity.
Defined.

(** ** When the loading flag stays set *)

Lemma get_throws v k e :
  js.get v k = js.Throw e -> (v = js.Undefined \/ v = js.Null) /\ e = js.TypeError.
Proof. destruct v; cbn; intros [=]; auto. Qed.

Lemma get_TypeError k :
  k = "response" \/ k = "request" -> js.get js.TypeError k = js.Normal js.Undefined.
Proof. intros [-> | ->]; reflexivity. Qed.

Lemma catch_TypeError st b :
  App.catch js.TypeError st b
  = App.finish App.defaultMessage st
      (App.console_error [js.text "Error fetching answer:"; js.TypeError] b).
Proof. reflexivity. Qed.

Lemma catch_throws_iff error st b :
  App.thrown_of (App.catch error st b) <> None <-> without_data error.
Proof.
  unfold App.catch, without_data.
  destruct (js.get error "response") as [response|e] eqn:G.
  - cbn [mbind js.completion_bind].
    assert (NN : error <> js.Undefined /\ error <> js.Null)
      by (split; intros ->; discriminate).
    destruct (js.truthy response) eqn:T.
    + destruct (js.get response "data") as [data|e] eqn:D.
      * cbn [mbind js.completion_bind].
        destruct (js.get data "error") as [m|e] eqn:Er.
        -- cbn. split; [done|]. intros [-> | [-> | (r & [= <-] & _ & [D'|D'])]];
             try discriminate;
             rewrite D in D'; injection D' as ->; discriminate.
        -- cbn. split; [|done]. intros _. right. right. exists response.
           destruct (get_throws _ _ _ Er) as [[-> | ->] _]; auto.
      * destruct (get_throws _ _ _ D) as [[-> | ->] _]; discriminate.
    + destruct (js.get error "request") as [rq|e] eqn:Rq.
      * cbn. split; [done|].
        intros [-> | [-> | (r & [= <-] & T' & _)]]; try discriminate.
        congruence.
      * destruct (get_throws _ _ _ Rq) as [[-> | ->] _]; discriminate.
  - cbn. split; [|done]. intros _.
    destruct (get_throws _ _ _ G) as [[-> | ->] _]; auto.
Qed.

(** X11. What follows the settling throws exactly when the promise was
    rejected with [undefined] or [null], or with an error whose [response]
    is truthy but whose [response.data] is [undefined] or [null]; a
    fulfilled promise never makes it throw. When [handleSubmit] ends that
    way the loading flag stays set and the user's message is the last. *)
Theorem loading_stays_set_iff_no_data :
  (forall o st b,
      App.thrown_of (App.settle o st b) <> None
      <-> exists error, o = App.Rejected error /\ without_data error)
  /\ (forall st b error,
      forallb js.isWhiteSpace (App.input st) = false ->
      App.post b App.chatURL (App.questionData (App.input st))
      = App.Rejected error ->
      without_data error ->
      App.isLoading (App.state_of (App.handleSubmit st b)) = true
      /\ App.messages (App.state_of (App.handleSubmit st b))
         = (App.messages st ++ [App.userMessage (App.input st)])%list).
Proof.
  assert (G : forall o st b,
      App.thrown_of (App.settle o st b) <> None
      <-> exists error, o = App.Rejected error /\ without_data error).
  { intros [response|error] st b; cbn [App.settle].
    - split; [|intros (error & [=] & _)].
      destruct (_ ≫= _) as [answer|e] eqn:E; [done|].
      assert (e = js.TypeError) as ->.
      { destruct (js.get response "data") as [d|e'] eqn:D.
        - exact (proj2 (get_throws _ _ _ E)).
        - injection E as <-. exact (proj2 (get_throws _ _ _ D)). }
      rewrite catch_TypeError. done.
    - rewrite catch_throws_iff. split; [by exists error|].
      by intros (error' & [= <-] & W). }
  split; [exact G|].
  intros st b error NB Hp W. unfold App.handleSubmit.
  rewrite blank_test, NB. cbn [negb]. rewrite Hp.
  match goal with |- context [App.settle ?o ?s ?bb] =>
    pose proof (proj2 (G o s bb) (ex_intro _ error (conj eq_refl W))) as T;
    destruct (settle_cases o s bb) as (b' & _ & _ & [[m E] | [e E]])
  end; rewrite E in *; [done|]. split; reflexivity.
Qed.

Lemma loading_stays_set_iff_no_data_witness :
  App.isLoading
    (App.state_of
       (App.handleSubmit (typed "hi")
          (server (App.Rejected (js.Object {["response" := js.Object ∅]})))))
  = true
  /\ App.messages
       (App.state_of
          (App.handleSubmit (typed "hi")
             (server (App.Rejected (js.Object {["response" := js.Object ∅]})))))
     = (App.messages (typed "hi") ++ [App.userMessage (js.lit "hi")])%list.
Proof.
  apply (proj2 loading_stays_set_iff_no_data (typed "hi")
           (server (App.Rejected (js.Object {["response" := js.Object ∅]})))
           (js.Object {["response" := js.Object ∅]})).
  - reflexivity.
  - reflexivity.
  - right. right. exists (js.Object ∅). repeat split; auto.
Defined.

(** X12. What the bot says after a rejection with an error object. If the
    error has a [response] object whose [data] is an object, the bot says
    [data.error] when that is truthy, and the fixed text "An error occurred
    while fetching the answer." when it is missing, empty or otherwise
    falsy. If the error has no truthy [response], the bot says "No response
    received from the server." when [request] is truthy and the fixed text
    otherwise. In each case the error went to the console first. *)
Theorem what_the_bot_says_after_a_rejection :
  forall props st b,
    let error := js.Object props in
    let b' := App.console_error [js.text "Error fetching answer:"; error] b in
    (forall rp dp,
        props !! "response" = Some (js.Object rp) ->
        rp !! "data" = Some (js.Object dp) ->
        App.settle (App.Rejected error) st b
        = App.finish
            (match dp !! "error" with
             | Some e => if js.truthy e then e else App.defaultMessage
             | None => App.defaultMessage
             end) st b')
    /\ ((props !! "response" = None
         \/ exists r, props !! "response" = Some r /\ js.truthy r = false) ->
        App.settle (App.Rejected error) st b
        = App.finish
            (match props !! "request" with
             | Some rq => if js.truthy rq then App.noResponseMessage
                          else App.defaultMessage
             | None => App.defaultMessage
             end) st b').
Proof.
  intros props st b error b'. split.
  - intros rp dp R D. cbn [App.settle]. unfold App.catch. fold b'.
    cbn [error js.get]. rewrite R.
    cbn [default from_option id mbind js.completion_bind js.truthy js.get].
    rewrite D. cbn [default from_option id mbind js.completion_bind js.get].
    destruct (dp !! "error") as [e|]; reflexivity.
  - intros H. cbn [App.settle]. unfold App.catch. fold b'.
    cbn [error js.get].
    assert (F : js.truthy (default js.Undefined (props !! "response")) = false).
    { destruct H as [-> | (r & -> & T)]; [reflexivity|exact T]. }
    cbn [mbind js.completion_bind]. rewrite F.
    cbn [mbind js.completion_bind mret js.completion_ret].
    destruct (props !! "request") as [rq|]; reflexivity.
Qed.

Lemma what_the_bot_says_after_a_rejection_witness :
  App.settle
    (App.Rejected (js.Object {["response" := carrying "error" EmptyString]}))
    (typed "hi") (server (App.Rejected js.Null))
  = App.finish App.defaultMessage (typed "hi")
      (App.console_error
         [js.text "Error fetching answer:";
          js.Object {["response" := carrying "error" EmptyString]}]
         (server (App.Rejected js.Null))).
Proof.
  rewrite (proj1 (what_the_bot_says_after_a_rejection
                    {["response" := carrying "error" EmptyString]}
                    (typed "hi") (server (App.Rejected js.Null)))
             {["data" := js.Object {["error" := js.text EmptyString]}]}
             {["error" := js.text EmptyString]}) by reflexivity.
  reflexivity.
Defined.

(** X13. What the bot says after a fulfilment with a response object. If
    [data] is an object, the bot says [data.answer], which is [undefined]
    when the object has no such field - as when it holds an [error]
    instead. If [data] is missing, [undefined] or [null], reading the
    answer throws inside the [try], and the bot says the fixed text "An
    error occurred while fetching the answer.", the TypeError having gone
    to the console. *)
Theorem what_the_bot_says_after_a_fulfilment :
  forall rp st b,
    (forall dp,
        rp !! "data" = Some (js.Object dp) ->
        App.settle (App.Fulfilled (js.Object rp)) st b
        = App.finish (default js.Undefined (dp !! "answer")) st b)
    /\ (rp !! "data" = None \/ rp !! "data" = Some js.Undefined
        \/ rp !! "data" = Some js.Null ->
        App.settle (App.Fulfilled (js.Object rp)) st b
        = App.finish App.defaultMessage st
            (App.console_error
               [js.text "Error fetching answer:"; js.TypeError] b)).
Proof.
  intros rp st b. split.
  - intros dp D. cbn [App.settle js.get]. rewrite D. reflexivity.
  - intros [D | [D | D]]; cbn [App.settle js.get]; rewrite D; reflexivity.
Qed.

Lemma what_the_bot_says_after_a_fulfilment_witness :
  App.settle (App.Fulfilled (carrying "error" "API returned non-200 status"))
    (typed "hi") (server (App.Rejected js.Null))
  = App.finish js.Undefined (typed "hi") (server (App.Rejected js.Null)).
Proof.
  unfold carrying.
  rewrite (proj1 (what_the_bot_says_after_a_fulfilment
                    {["data" := js.Object
                                  {["error" := js.text "API returned non-200 status"]}]}
                    (typed "hi") (server (App.Rejected js.Null)))
             {["error" := js.text "API returned non-200 status"]})
    by reflexivity.
  reflexivity.
Defined.
